(** * ExpenseTracker backend: a shallow embedding of [server.js]

    The server is an Express application whose handlers each issue one
    parameterized SQL statement through [pool.query] and map the outcome
    to an HTTP status and a JSON body.  The embedding follows the file
    top to bottom: JavaScript values and their truthiness, the values the
    PostgreSQL driver sends, the three tables, one definition per SQL
    statement, one definition per handler, and the routing table. *)

From Stdlib Require Import ZArith QArith String Ascii List Bool Lia.
From Stdlib Require Import DecimalString DecimalPos DecimalZ.
From stdpp Require Import base tactics option list strings sorting.
Import ListNotations.

Local Open Scope string_scope.
Local Open Scope Z_scope.

(** ** JavaScript values *)

Module JS.

(** The values that reach the handlers: fields of a JSON body, query
    string entries and header values ([Str] or [Undefined]), and the
    numbers the handlers compute themselves ([parseInt], the user id of
    a decoded token).  Numbers are the integral ones; a decimal amount
    travels as a string such as ["42.50"]. *)
Inductive value :=
| Undefined
| Null
| Bool (b : bool)
| Num (n : Z)
| NaN
| Str (s : string).

(** [!v] is [negb (truthy v)]. *)
Definition truthy (v : value) : bool :=
  match v with
  | Undefined | Null | NaN => false
  | Bool b => b
  | Num n => negb (Z.eqb n 0)
  | Str s => negb (String.eqb s "")
  end.

(** [v === "..."] against a string literal. *)
Definition strict_eq_string (v : value) (s : string) : bool :=
  match v with
  | Str s' => String.eqb s' s
  | _ => false
  end.

(** [Number.prototype.toString] on an integral number. *)
Definition number_text (n : Z) : string :=
  NilZero.string_of_int (Z.to_int n).

(** What [parseInt] returns, as a value: an integer or [NaN]. *)
Definition of_parseInt (r : option Z) : value :=
  match r with
  | Some n => Num n
  | None => NaN
  end.

End JS.

(** ** Calendar values of the store *)

(** A [date] is a calendar day, a [timestamp] a calendar day and the
    microseconds elapsed since its midnight; every session of the pool
    reads them in one time zone. *)
Record date := Date { dyear : Z; dmonth : Z; dday : Z }.
Record timestamp := Timestamp { on : date; time : Z }.

Definition usec_per_day : Z := 86400000000.

(** A timestamp a [timestamp] column can hold. *)
Definition valid_timestamp (t : timestamp) : Prop :=
  1 <= dmonth (on t) <= 12 /\ 1 <= dday (on t) <= 31 /\
  0 <= time t < usec_per_day.

Definition date_compare (a b : date) : comparison :=
  match dyear a ?= dyear b with
  | Eq => match dmonth a ?= dmonth b with
          | Eq => dday a ?= dday b
          | c => c
          end
  | c => c
  end.

Definition timestamp_compare (a b : timestamp) : comparison :=
  match date_compare (on a) (on b) with
  | Eq => time a ?= time b
  | c => c
  end.

Definition leb_of (c : comparison) : bool :=
  match c with Gt => false | _ => true end.

Definition date_leb (a b : date) : bool := leb_of (date_compare a b).
Definition timestamp_leb (a b : timestamp) : bool :=
  leb_of (timestamp_compare a b).

(** [x BETWEEN lo AND hi] is [lo <= x AND x <= hi]. *)
Definition date_between (x lo hi : date) : bool :=
  date_leb lo x && date_leb x hi.
Definition timestamp_between (x lo hi : timestamp) : bool :=
  timestamp_leb lo x && timestamp_leb x hi.

(** [t::date] *)
Definition cast_date (t : timestamp) : date := on t.
(** A date read where a timestamp is expected is its midnight. *)
Definition midnight (d : date) : timestamp := Timestamp d 0.

(** [EXTRACT(YEAR | MONTH | DAY FROM t)] *)
Definition extract_year (t : timestamp) : Z := dyear (on t).
Definition extract_month (t : timestamp) : Z := dmonth (on t).
Definition extract_day (t : timestamp) : Z := dday (on t).

Global Instance date_eq_dec : EqDecision date.
Proof. solve_decision. Defined.
Global Instance timestamp_eq_dec : EqDecision timestamp.
Proof. solve_decision. Defined.

(** ** Errors thrown into a handler's [catch] *)

Inductive error :=
| PgError (sqlstate : string)   (* a DatabaseError of the driver: [err.code] is the SQLSTATE *)
| JsError (message : string).   (* any other Error: [err.code] is undefined *)

Definition code (e : error) : JS.value :=
  match e with
  | PgError c => JS.Str c
  | JsError _ => JS.Undefined
  end.

Definition unique_violation : string := "23505".
Definition not_null_violation : string := "23502".
Definition invalid_text_representation : string := "22P02".
Definition indeterminate_datatype : string := "42P18".
Definition protocol_violation : string := "08P01".

(** ** What lies outside [server.js] *)

(** The libraries the file requires and the server it talks to.  Their
    results are taken as given; [None] stands for a thrown exception (a
    rejected promise) or, for the input functions of the store, for a
    text the column type does not accept.  [ORDER BY] on a text column
    follows the collation of the database, which the sources do not
    fix: it is taken as an order on strings that is total and
    transitive, nothing more.  The last field belongs to the
    schema, which is not among the sources: the data model says that
    [created_at] has the current time as its default and does not say
    whether the column is declared NOT NULL, so both declarations are
    covered. *)
Class Platform := {
  (** [parseInt(s)]; [None] is NaN *)
  parseInt : string -> option Z;
  (** [jwt.sign({ userId }, jwtSecret, { expiresIn: "1h" })] at a given time *)
  jwt_sign : Z -> timestamp -> string;
  (** [jwt.verify(token, jwtSecret).userId] at a given time *)
  jwt_verify : string -> timestamp -> option Z;
  jwt_verify_empty : forall now, jwt_verify "" now = None;
  (** [bcrypt.hash(password, salt)] *)
  bcrypt_hash : JS.value -> string -> option string;
  (** [bcrypt.compare(password, hash)] *)
  bcrypt_compare : JS.value -> string -> option bool;
  (** input functions of the column types *)
  int4_in : string -> option Z;
  numeric_in : string -> option Q;
  timestamp_in : string -> option timestamp;
  date_in : string -> option date;
  int4_in_number_text :
    forall n, -2147483648 <= n <= 2147483647 ->
              int4_in (JS.number_text n) = Some n;
  (** [a <= b] in the collation of the database *)
  collate : string -> string -> bool;
  collate_total : forall a b, collate a b = true \/ collate b a = true;
  collate_trans :
    forall a b c, collate a b = true -> collate b c = true ->
                  collate a c = true;
  created_at_not_null : bool
}.

(** ** Parameters on the wire *)

(** [prepareValue] of the driver: [null] and [undefined] are sent as NULL,
    everything else as its text. *)
Definition prepareValue (v : JS.value) : option string :=
  match v with
  | JS.Undefined | JS.Null => None
  | JS.Bool true => Some "true"
  | JS.Bool false => Some "false"
  | JS.Num n => Some (JS.number_text n)
  | JS.NaN => Some "NaN"
  | JS.Str s => Some s
  end.

(** A parameter read by the input function of the type the statement
    gives it: NULL stays NULL, a text the type rejects aborts the
    statement before it touches a table. *)
Definition input {A} (f : string -> option A) (p : option string)
  : error + option A :=
  match p with
  | None => inr None
  | Some s =>
      match f s with
      | Some v => inr (Some v)
      | None => inl (PgError invalid_text_representation)
      end
  end.

(** ** Tables *)

(** Modelled from the spec: the table definitions are not among the
    sources.  The data model gives a user a system-generated id, a
    user name and an e-mail address that are unique and not null, and a
    password hash that is not null. *)
Module User.
Record t := Build {
  id : Z;
  username : string;
  email : string;
  password_hash : string
}.
End User.

(** Modelled from the spec: a category is a name and the user it belongs
    to, the pair being unique. *)
Module Category.
Record t := Build {
  name : option string;
  user_id : option Z
}.
End Category.

(** Modelled from the spec: an expense has a system-generated id, a
    decimal amount, an optional description, a free-form category, the
    time it was made and the user it belongs to.  Columns the data model
    does not call non-null can hold NULL. *)
Module Expense.
Record t := Build {
  id : Z;
  amount : option Q;
  description : option string;
  category : option string;
  created_at : option timestamp;
  user_id : option Z
}.
End Expense.

(** The relational store: the rows of each table in insertion order and
    the last value drawn from each id sequence. *)
Record db := Db {
  users : list User.t;
  users_id_seq : Z;
  expenses : list Expense.t;
  expenses_id_seq : Z;
  categories : list Category.t
}.

(** Rows as the driver hands them back ([result.rows]). *)
Inductive row :=
| UserRow (u : User.t)
| NewUserRow (id : Z) (username email : string)
| ExpenseRow (e : Expense.t)
| RangeRow (id : Z) (amount : option Q) (description category : option string)
           (created_at : option timestamp)
| CategoryTotal (category : option string) (total_amount : option Q)
| DayTotal (day : option date) (total_amount : option Q)
| PartTotal (part : option Z) (total_amount : option Q)
| NameRow (name : option string)
| CategoryRow (c : Category.t).

Definition rowCount (rows : list row) : nat := length rows.

(** ** SQL expressions *)

Module Sql.

(** A WHERE clause keeps a row only when its condition is true; a
    comparison with NULL on either side is not. *)
Definition eq_int (a b : option Z) : bool :=
  match a, b with
  | Some x, Some y => Z.eqb x y
  | _, _ => false
  end.

Definition eq_text (a b : option string) : bool :=
  match a, b with
  | Some x, Some y => String.eqb x y
  | _, _ => false
  end.

(** [EXTRACT(...) = $n]: the calendar part against a numeric parameter. *)
Definition eq_numeric (a : option Z) (b : option Q) : bool :=
  match a, b with
  | Some x, Some q => Qeq_bool (inject_Z x) q
  | _, _ => false
  end.

Definition between_date (x lo hi : option date) : bool :=
  match x, lo, hi with
  | Some x, Some lo, Some hi => date_between x lo hi
  | _, _, _ => false
  end.

Definition between_timestamp (x lo hi : option timestamp) : bool :=
  match x, lo, hi with
  | Some x, Some lo, Some hi => timestamp_between x lo hi
  | _, _, _ => false
  end.

(** [SUM]: NULL inputs are skipped, and the sum of no value is NULL. *)
Definition sum (l : list (option Q)) : option Q :=
  fold_left
    (fun acc a =>
       match a with
       | None => acc
       | Some q => Some (match acc with None => q | Some s => (s + q)%Q end)
       end)
    l None.

(** [ORDER BY ... ASC] puts NULL last, [ORDER BY ... DESC] puts it first. *)
Definition asc {A} (leb : A -> A -> bool) (x y : option A) : bool :=
  match x, y with
  | Some a, Some b => leb a b
  | _, None => true
  | None, Some _ => false
  end.

Definition desc {A} (leb : A -> A -> bool) (x y : option A) : bool :=
  asc leb y x.

Definition order_by {R K} (key : R -> option K) (dir : option K -> option K -> bool)
    (rows : list R) : list R :=
  merge_sort (fun a b => Is_true (dir (key a) (key b))) rows.

(** [SELECT key, SUM(amount) ... GROUP BY key]: one row per distinct
    key, NULL being a key like any other. *)
Definition group_sum {R K} `{EqDecision K} (key : R -> option K)
    (amount : R -> option Q) (rows : list R) : list (option K * option Q) :=
  map (fun k => (k, sum (map amount (filter (fun r => key r = k) rows))))
      (remove_dups (map key rows)).

End Sql.

Definition Zleb (a b : Z) : bool := Z.leb a b.
Definition Qleb (a b : Q) : bool := Qle_bool a b.

(** ** Statements and [pool.query] *)

Definition digit (c : ascii) : option nat :=
  let n := nat_of_ascii c in
  if (48 <=? n)%nat && (n <=? 57)%nat then Some (n - 48)%nat else None.

(** The number written at the head of a text, if it starts with a digit. *)
Fixpoint number_prefix (s : string) (acc : option nat) : option nat :=
  match s with
  | EmptyString => acc
  | String c s' =>
      match digit c with
      | Some k => number_prefix s' (Some (10 * default 0%nat acc + k)%nat)
      | None => acc
      end
  end.

(** The parameter numbers [$n] that occur in a statement text. *)
Fixpoint placeholders (s : string) : list nat :=
  match s with
  | EmptyString => []
  | String c s' =>
      if Ascii.eqb c "$" then
        match number_prefix s' None with
        | Some n => n :: placeholders s'
        | None => placeholders s'
        end
      else placeholders s'
  end.

(** What the server does with the Parse and Bind messages the driver
    sends for a query with values, before any row is touched.  The
    statement has as many parameters as the highest [$n] of its text.
    The driver names no types, so every parameter must get its type from
    a place where it occurs in the text; one that occurs nowhere gets
    none and the statement is refused ("could not determine data type of
    parameter $n", SQLSTATE 42P18).  The values bound must be as many as
    the parameters (08P01). *)
Definition parse_bind (text : string) (values : nat) : option error :=
  let refs := placeholders text in
  let n := max_list refs in
  if forallb (fun k => existsb (Nat.eqb k) refs) (seq 1 n) then
    if Nat.eqb values n then None else Some (PgError protocol_violation)
  else Some (PgError indeterminate_datatype).

(** The world a request meets: the clock, the salt [bcrypt.genSalt] draws,
    and whether the pool fails to run the statement at all (no
    connection, a timeout, a server going away). *)
Record env := Env {
  now : timestamp;
  salt : string;
  outage : option error
}.

(** A statement is its text and what the store does with it, given the
    parameters as sent.  Texts the source writes over several lines are
    given on one, with their white space collapsed. *)
Record statement := Statement {
  text : string;
  run : timestamp -> list (option string) -> db -> (error + list row) * db
}.

(** [$n] of a parameter list *)
Definition param (ps : list (option string)) (n : nat) : option string :=
  mjoin (ps !! (n - 1)%nat).

(** [await pool.query(text, values)]: the rows, or the error thrown. *)
Definition pool_query (w : env) (st : statement) (values : list JS.value) (d : db)
  : (error + list row) * db :=
  match outage w with
  | Some e => (inl e, d)
  | None =>
      match parse_bind (text st) (length values) with
      | Some e => (inl e, d)
      | None => run st (now w) (map prepareValue values) d
      end
  end.

Notation "'read' x ':=' r 'else' d 'in' k" :=
  (match r with inl e => (inl e, d) | inr x => k end)
  (at level 10, x name, r at level 200, d at level 0, k at level 200,
   only parsing).

Definition set_users (v : list User.t) (d : db) : db :=
  Db v (users_id_seq d) (expenses d) (expenses_id_seq d) (categories d).
Definition set_users_id_seq (v : Z) (d : db) : db :=
  Db (users d) v (expenses d) (expenses_id_seq d) (categories d).
Definition set_expenses (v : list Expense.t) (d : db) : db :=
  Db (users d) (users_id_seq d) v (expenses_id_seq d) (categories d).
Definition set_expenses_id_seq (v : Z) (d : db) : db :=
  Db (users d) (users_id_seq d) (expenses d) v (categories d).
Definition set_categories (v : list Category.t) (d : db) : db :=
  Db (users d) (users_id_seq d) (expenses d) (expenses_id_seq d) v.

Definition CategoryTotal_of (p : option string * option Q) : row :=
  CategoryTotal (fst p) (snd p).
Definition DayTotal_of (p : option date * option Q) : row :=
  DayTotal (fst p) (snd p).
Definition PartTotal_of (p : option Z * option Q) : row :=
  PartTotal (fst p) (snd p).
Definition RangeRow_of (e : Expense.t) : row :=
  RangeRow (Expense.id e) (Expense.amount e) (Expense.description e)
           (Expense.category e) (Expense.created_at e).

Section Statements.
Context `{Platform}.

(** *** users *)

(** Modelled from the spec: the unique constraints of [users], one on
    the user name and one on the e-mail address. *)
Definition users_conflict (username email : string) (rows : list User.t) : bool :=
  existsb (fun u => String.eqb (User.username u) username
                    || String.eqb (User.email u) email) rows.

(** The three columns are not null, so a NULL among the values is
    refused (23502) before the unique constraints are looked at (23505).
    A sequence value drawn for a row that a constraint then rejects is
    not given back. *)
Definition insert_user : statement := {|
  text := "INSERT INTO users (username, email, password_hash) VALUES ($1, $2, $3) RETURNING id, username, email";
  run := fun _ ps d =>
    let id := users_id_seq d + 1 in
    let d' := set_users_id_seq id d in
    match param ps 1, param ps 2, param ps 3 with
    | Some username, Some email, Some password_hash =>
        if users_conflict username email (users d)
        then (inl (PgError unique_violation), d')
        else (inr [NewUserRow id username email],
              set_users (users d ++ [User.Build id username email password_hash]) d')
    | _, _, _ => (inl (PgError not_null_violation), d')
    end
|}.

Definition select_user : statement := {|
  text := "SELECT * FROM users WHERE username = $1";
  run := fun _ ps d =>
    (inr (map UserRow
            (filter (fun u => Sql.eq_text (Some (User.username u)) (param ps 1))
                    (users d))), d)
|}.

(** *** expenses *)

(** Every column of the list takes the value sent for it, NULL
    included: the default of a column is for statements that leave the
    column out.  A NULL for [created_at] is stored as it is, or refused
    (23502) if the column is declared NOT NULL. *)
Definition insert_expense : statement := {|
  text := "INSERT INTO expenses (amount, description, category, created_at, user_id) VALUES ($1, $2, $3, $4, $5) RETURNING *";
  run := fun _ ps d =>
    read amount := input numeric_in (param ps 1) else d in
    read created_at := input timestamp_in (param ps 4) else d in
    read user_id := input int4_in (param ps 5) else d in
    let id := expenses_id_seq d + 1 in
    let d' := set_expenses_id_seq id d in
    let e := Expense.Build id amount (param ps 2) (param ps 3) created_at user_id in
    match created_at with
    | None =>
        if created_at_not_null then (inl (PgError not_null_violation), d')
        else (inr [ExpenseRow e], set_expenses (expenses d ++ [e]) d')
    | Some _ => (inr [ExpenseRow e], set_expenses (expenses d ++ [e]) d')
    end
|}.

Definition owned_by (user_id : option Z) (e : Expense.t) : bool :=
  Sql.eq_int (Expense.user_id e) user_id.

(** [EXTRACT(MONTH FROM created_at) = m AND EXTRACT(YEAR FROM created_at) = y] *)
Definition in_month (m y : option Q) (e : Expense.t) : bool :=
  Sql.eq_numeric (extract_month <$> Expense.created_at e) m
  && Sql.eq_numeric (extract_year <$> Expense.created_at e) y.

(** [EXTRACT(YEAR FROM created_at) = y] *)
Definition in_year (y : option Q) (e : Expense.t) : bool :=
  Sql.eq_numeric (extract_year <$> Expense.created_at e) y.

(** [created_at BETWEEN lo AND hi] *)
Definition created_between (lo hi : option timestamp) (e : Expense.t) : bool :=
  Sql.between_timestamp (Expense.created_at e) lo hi.

(** [created_at::date BETWEEN lo AND hi] *)
Definition created_date_between (lo hi : option date) (e : Expense.t) : bool :=
  Sql.between_date (cast_date <$> Expense.created_at e) lo hi.

Definition newest_first (rows : list Expense.t) : list Expense.t :=
  Sql.order_by Expense.created_at (Sql.desc timestamp_leb) rows.

(** [GROUP BY category ORDER BY total_amount DESC] *)
Definition by_category (rows : list Expense.t) : list row :=
  map CategoryTotal_of
      (Sql.order_by snd (Sql.desc Qleb)
         (Sql.group_sum Expense.category Expense.amount rows)).

(** [created_at::date AS day ... GROUP BY day ORDER BY day ASC] *)
Definition by_day (rows : list Expense.t) : list row :=
  map DayTotal_of
      (Sql.order_by fst (Sql.asc date_leb)
         (Sql.group_sum (fun e => cast_date <$> Expense.created_at e)
                        Expense.amount rows)).

(** [EXTRACT(part FROM created_at) AS part ... GROUP BY part ORDER BY part ASC] *)
Definition by_part (part : timestamp -> Z) (rows : list Expense.t) : list row :=
  map PartTotal_of
      (Sql.order_by fst (Sql.asc Zleb)
         (Sql.group_sum (fun e => part <$> Expense.created_at e)
                        Expense.amount rows)).

(** The statement of [GET /expenses]; [filtered] tells whether the
    month and year conditions were appended to the text. *)
Definition select_expenses (query : string) (filtered : bool) : statement := {|
  text := query;
  run := fun _ ps d =>
    read user_id := input int4_in (param ps 3) else d in
    if filtered then
      read m := input numeric_in (param ps 1) else d in
      read y := input numeric_in (param ps 2) else d in
      (inr (map ExpenseRow
              (newest_first
                 (filter (fun e => owned_by user_id e && in_month m y e)
                         (expenses d)))), d)
    else
      (inr (map ExpenseRow
              (newest_first (filter (fun e => owned_by user_id e) (expenses d)))), d)
|}.

(** The statement of [GET /reports/category-summary]. *)
Definition select_category_summary (query : string) (filtered : bool) : statement := {|
  text := query;
  run := fun _ ps d =>
    read user_id := input int4_in (param ps 3) else d in
    if filtered then
      read m := input numeric_in (param ps 1) else d in
      read y := input numeric_in (param ps 2) else d in
      (inr (by_category
              (filter (fun e => owned_by user_id e && in_month m y e)
                      (expenses d))), d)
    else
      (inr (by_category (filter (fun e => owned_by user_id e) (expenses d))), d)
|}.

Definition select_monthly_summary : statement := {|
  text := "SELECT EXTRACT(DAY FROM created_at) AS day, SUM(amount) AS total_amount FROM expenses WHERE user_id = $3 AND EXTRACT(MONTH FROM created_at) = $1 AND EXTRACT(YEAR FROM created_at) = $2 GROUP BY day ORDER BY day ASC;";
  run := fun _ ps d =>
    read m := input numeric_in (param ps 1) else d in
    read y := input numeric_in (param ps 2) else d in
    read user_id := input int4_in (param ps 3) else d in
    (inr (by_part extract_day
            (filter (fun e => owned_by user_id e && in_month m y e)
                    (expenses d))), d)
|}.

Definition select_weekly_category_summary : statement := {|
  text := "SELECT category, SUM(amount) AS total_amount FROM expenses WHERE user_id = $3 AND created_at BETWEEN $1 AND $2 GROUP BY category ORDER BY total_amount DESC;";
  run := fun _ ps d =>
    read lo := input timestamp_in (param ps 1) else d in
    read hi := input timestamp_in (param ps 2) else d in
    read user_id := input int4_in (param ps 3) else d in
    (inr (by_category
            (filter (fun e => owned_by user_id e && created_between lo hi e)
                    (expenses d))), d)
|}.

Definition select_yearly_category_summary : statement := {|
  text := "SELECT category, SUM(amount) AS total_amount FROM expenses WHERE user_id = $2 AND EXTRACT(YEAR FROM created_at) = $1 GROUP BY category ORDER BY total_amount DESC;";
  run := fun _ ps d =>
    read y := input numeric_in (param ps 1) else d in
    read user_id := input int4_in (param ps 2) else d in
    (inr (by_category
            (filter (fun e => owned_by user_id e && in_year y e)
                    (expenses d))), d)
|}.

Definition select_yearly_summary : statement := {|
  text := "SELECT EXTRACT(MONTH FROM created_at) AS month, SUM(amount) AS total_amount FROM expenses WHERE user_id = $2 AND EXTRACT(YEAR FROM created_at) = $1 GROUP BY month ORDER BY month ASC;";
  run := fun _ ps d =>
    read y := input numeric_in (param ps 1) else d in
    read user_id := input int4_in (param ps 2) else d in
    (inr (by_part extract_month
            (filter (fun e => owned_by user_id e && in_year y e)
                    (expenses d))), d)
|}.

Definition select_weekly_summary : statement := {|
  text := "SELECT created_at::date AS day, SUM(amount) AS total_amount FROM expenses WHERE user_id = $3 AND created_at BETWEEN $1 AND $2 GROUP BY day ORDER BY day ASC;";
  run := fun _ ps d =>
    read lo := input timestamp_in (param ps 1) else d in
    read hi := input timestamp_in (param ps 2) else d in
    read user_id := input int4_in (param ps 3) else d in
    (inr (by_day
            (filter (fun e => owned_by user_id e && created_between lo hi e)
                    (expenses d))), d)
|}.

(** [WHERE id = $n AND user_id = $m] *)
Definition targeted (id user_id : option Z) (e : Expense.t) : bool :=
  Sql.eq_int (Some (Expense.id e)) id && Sql.eq_int (Expense.user_id e) user_id.

Definition update_expense : statement := {|
  text := "UPDATE expenses SET amount = $1, description = $2, category = $3, created_at = $4 WHERE id = $5 AND user_id = $6 RETURNING *;";
  run := fun _ ps d =>
    read amount := input numeric_in (param ps 1) else d in
    read created_at := input timestamp_in (param ps 4) else d in
    read id := input int4_in (param ps 5) else d in
    read user_id := input int4_in (param ps 6) else d in
    let set e :=
      Expense.Build (Expense.id e) amount (param ps 2) (param ps 3) created_at
                    (Expense.user_id e) in
    let hits := filter (fun e => targeted id user_id e) (expenses d) in
    match created_at, hits with
    | None, _ :: _ =>
        if created_at_not_null then (inl (PgError not_null_violation), d)
        else (inr (map (fun e => ExpenseRow (set e)) hits),
              set_expenses
                (map (fun e => if targeted id user_id e then set e else e)
                     (expenses d)) d)
    | _, _ =>
        (inr (map (fun e => ExpenseRow (set e)) hits),
         set_expenses
           (map (fun e => if targeted id user_id e then set e else e)
                (expenses d)) d)
    end
|}.

Definition delete_expense : statement := {|
  text := "DELETE FROM expenses WHERE id = $1 AND user_id = $2 RETURNING *";
  run := fun _ ps d =>
    read id := input int4_in (param ps 1) else d in
    read user_id := input int4_in (param ps 2) else d in
    (inr (map ExpenseRow (filter (fun e => targeted id user_id e) (expenses d))),
     set_expenses (filter (fun e => negb (targeted id user_id e)) (expenses d)) d)
|}.

Definition select_expenses_range : statement := {|
  text := "SELECT id, amount, description, category, created_at FROM expenses WHERE user_id = $3 AND created_at::date BETWEEN $1 AND $2 ORDER BY created_at DESC;";
  run := fun _ ps d =>
    read lo := input date_in (param ps 1) else d in
    read hi := input date_in (param ps 2) else d in
    read user_id := input int4_in (param ps 3) else d in
    (inr (map RangeRow_of
            (newest_first
               (filter (fun e => owned_by user_id e && created_date_between lo hi e)
                       (expenses d)))), d)
|}.

Definition select_range_category_summary : statement := {|
  text := "SELECT category, SUM(amount) AS total_amount FROM expenses WHERE user_id = $3 AND created_at::date BETWEEN $1 AND $2 GROUP BY category ORDER BY total_amount DESC;";
  run := fun _ ps d =>
    read lo := input date_in (param ps 1) else d in
    read hi := input date_in (param ps 2) else d in
    read user_id := input int4_in (param ps 3) else d in
    (inr (by_category
            (filter (fun e => owned_by user_id e && created_date_between lo hi e)
                    (expenses d))), d)
|}.

Definition select_range_daily_summary : statement := {|
  text := "SELECT created_at::date AS day, SUM(amount) AS total_amount FROM expenses WHERE user_id = $3 AND created_at::date BETWEEN $1 AND $2 GROUP BY day ORDER BY day ASC;";
  run := fun _ ps d =>
    read lo := input date_in (param ps 1) else d in
    read hi := input date_in (param ps 2) else d in
    read user_id := input int4_in (param ps 3) else d in
    (inr (by_day
            (filter (fun e => owned_by user_id e && created_date_between lo hi e)
                    (expenses d))), d)
|}.

(** *** categories *)

(** [WHERE name = $1 AND user_id = $2] *)
Definition named (name : option string) (user_id : option Z) (c : Category.t) : bool :=
  Sql.eq_text (Category.name c) name && Sql.eq_int (Category.user_id c) user_id.

(** Modelled from the spec: the unique constraint of [categories] on
    the pair (name, user_id); as in any unique constraint a NULL is
    equal to nothing. *)
Definition categories_conflict (name : option string) (user_id : option Z)
    (rows : list Category.t) : bool :=
  existsb (named name user_id) rows.

Definition select_categories : statement := {|
  text := "SELECT name FROM categories WHERE user_id = $1 ORDER BY name ASC";
  run := fun _ ps d =>
    read user_id := input int4_in (param ps 1) else d in
    (inr (map (fun c => NameRow (Category.name c))
            (Sql.order_by Category.name (Sql.asc collate)
               (filter (fun c => Sql.eq_int (Category.user_id c) user_id)
                       (categories d)))), d)
|}.

Definition insert_category : statement := {|
  text := "INSERT INTO categories (name, user_id) VALUES ($1, $2) RETURNING name";
  run := fun _ ps d =>
    read user_id := input int4_in (param ps 2) else d in
    if categories_conflict (param ps 1) user_id (categories d)
    then (inl (PgError unique_violation), d)
    else (inr [NameRow (param ps 1)],
          set_categories (categories d ++ [Category.Build (param ps 1) user_id]) d)
|}.

Definition delete_category : statement := {|
  text := "DELETE FROM categories WHERE name = $1 AND user_id = $2 RETURNING *";
  run := fun _ ps d =>
    read user_id := input int4_in (param ps 2) else d in
    (inr (map CategoryRow (filter (fun c => named (param ps 1) user_id c) (categories d))),
     set_categories (filter (fun c => negb (named (param ps 1) user_id c)) (categories d)) d)
|}.

End Statements.

(** ** Requests and responses *)

Module Query.
(** [req.query] *)
Record t := Build {
  month : JS.value;
  year : JS.value;
  startDate : JS.value;
  endDate : JS.value
}.
End Query.

Module Body.
(** [req.body], the fields the handlers destructure *)
Record t := Build {
  username : JS.value;
  email : JS.value;
  password : JS.value;
  amount : JS.value;
  description : JS.value;
  category : JS.value;
  created_at : JS.value;
  name : JS.value
}.
End Body.

Record request := Request {
  authorization : JS.value;   (* req.header("Authorization") *)
  params_id : string;         (* req.params.id *)
  query : Query.t;
  body : Body.t;
  userId : JS.value           (* req.userId, set by authMiddleware *)
}.

Definition set_userId (v : JS.value) (req : request) : request :=
  Request (authorization req) (params_id req) (query req) (body req) v.

Inductive json :=
| ErrorBody (error : string)
| MessageBody (message : string)
| RegisteredBody (message token : string) (user : row)
| LoggedInBody (message token : string) (id : Z) (username : string)
| RowBody (r : option row)
| RowsBody (rows : list row)
| NamesBody (names : list (option string)).

(** [res.status(status).json(body)] *)
Record response := Response { status : Z; payload : json }.

Definition handler := env -> request -> db -> response * db.

(** A middleware answers the request itself or passes it on with [next()]. *)
Inductive verdict :=
| Reply (res : response)
| Next (req : request).

Definition middleware := env -> request -> verdict.

(** [try { ... } catch (err) { ... }] around the part of a handler that
    can throw: the outcome of the body, answered by [catch] when it is an
    error. *)
Definition try_catch (attempt : (error + response) * db)
    (catch : error -> response) : response * db :=
  match attempt with
  | (inr res, d) => (res, d)
  | (inl err, d) => (catch err, d)
  end.

Section Handlers.
Context `{Platform}.

Definition authMiddleware : middleware := fun w req =>
  let token := authorization req in
  if negb (JS.truthy token) then
    Reply (Response 401 (ErrorBody "No token, authorization denied"))
  else
    match token with
    | JS.Str s =>
        match jwt_verify s (now w) with
        | Some decoded_userId => Next (set_userId (JS.Num decoded_userId) req)
        | None => Reply (Response 401 (ErrorBody "Token is not valid"))
        end
    | _ => Reply (Response 401 (ErrorBody "Token is not valid"))
    end.

(** [POST /api/register] *)
Definition register : handler := fun w req d =>
  try_catch
    match bcrypt_hash (Body.password (body req)) (salt w) with
    | None => (inl (JsError "Illegal arguments"), d)
    | Some password_hash =>
        match pool_query w insert_user
                [Body.username (body req); Body.email (body req);
                 JS.Str password_hash] d with
        | (inl err, d') => (inl err, d')
        | (inr rows, d') =>
            match head rows with
            | Some (NewUserRow id _ _ as newUser) =>
                let token := jwt_sign id (now w) in
                (inr (Response 201
                        (RegisteredBody "User registered successfully" token newUser)),
                 d')
            | _ => (inl (JsError "Cannot read properties of undefined"), d')
            end
        end
    end
    (fun err =>
       if JS.strict_eq_string (code err) "23505" then
         Response 400 (ErrorBody "Username or email already exists")
       else Response 500 (ErrorBody "Server error during registration")).

(** [POST /api/login] *)
Definition login : handler := fun w req d =>
  try_catch
    match pool_query w select_user [Body.username (body req)] d with
    | (inl err, d') => (inl err, d')
    | (inr rows, d') =>
        if Nat.eqb (rowCount rows) 0 then
          (inr (Response 400 (ErrorBody "Invalid username or password")), d')
        else
          match head rows with
          | Some (UserRow user) =>
              match bcrypt_compare (Body.password (body req))
                      (User.password_hash user) with
              | None => (inl (JsError "Illegal arguments"), d')
              | Some false =>
                  (inr (Response 400 (ErrorBody "Invalid username or password")), d')
              | Some true =>
                  let token := jwt_sign (User.id user) (now w) in
                  (inr (Response 200
                          (LoggedInBody "Logged in successfully" token
                             (User.id user) (User.username user))), d')
              end
          | _ => (inl (JsError "Cannot read properties of undefined"), d')
          end
    end
    (fun _ => Response 500 (ErrorBody "Server error during login")).

(** The shape shared by the handlers that run one statement and answer
    with what it returned. *)
Definition answer (w : env) (st : statement) (values : list JS.value)
    (ok : list row -> response) (failure : string) (d : db) : response * db :=
  try_catch
    match pool_query w st values d with
    | (inl err, d') => (inl err, d')
    | (inr rows, d') => (inr (ok rows), d')
    end
    (fun _ => Response 500 (ErrorBody failure)).

(** [POST /expenses] *)
Definition createExpense : handler := fun w req d =>
  answer w insert_expense
    [Body.amount (body req); Body.description (body req);
     Body.category (body req); Body.created_at (body req); userId req]
    (fun rows => Response 201 (RowBody (head rows)))
    "Failed to add expense" d.

(** [month && year] *)
Definition both (month year : JS.value) : bool :=
  JS.truthy month && JS.truthy year.

(** [GET /expenses] *)
Definition listExpenses : handler := fun w req d =>
  let month := Query.month (query req) in
  let year := Query.year (query req) in
  let query :=
    "SELECT * FROM expenses WHERE user_id = $3"
    ++ (if both month year
        then " AND EXTRACT(MONTH FROM created_at) = $1 AND EXTRACT(YEAR FROM created_at) = $2"
        else "")
    ++ " ORDER BY created_at DESC" in
  answer w (select_expenses query (both month year)) [month; year; userId req]
    (fun rows => Response 200 (RowsBody rows))
    "Failed to retrieve expenses" d.

(** [GET /reports/category-summary] *)
Definition categorySummary : handler := fun w req d =>
  let month := Query.month (query req) in
  let year := Query.year (query req) in
  let query :=
    "SELECT category, SUM(amount) AS total_amount FROM expenses WHERE user_id = $3"
    ++ (if both month year
        then " AND EXTRACT(MONTH FROM created_at) = $1 AND EXTRACT(YEAR FROM created_at) = $2"
        else "")
    ++ " GROUP BY category ORDER BY total_amount DESC" in
  answer w (select_category_summary query (both month year))
    [month; year; userId req]
    (fun rows => Response 200 (RowsBody rows))
    "Failed to retrieve report data" d.

(** [GET /reports/monthly-summary] *)
Definition monthlySummary : handler := fun w req d =>
  answer w select_monthly_summary
    [Query.month (query req); Query.year (query req); userId req]
    (fun rows => Response 200 (RowsBody rows))
    "Failed to retrieve monthly summary data" d.

(** [GET /reports/weekly-category-summary] *)
Definition weeklyCategorySummary : handler := fun w req d =>
  answer w select_weekly_category_summary
    [Query.startDate (query req); Query.endDate (query req); userId req]
    (fun rows => Response 200 (RowsBody rows))
    "Failed to retrieve weekly category summary" d.

(** [GET /reports/yearly-category-summary] *)
Definition yearlyCategorySummary : handler := fun w req d =>
  answer w select_yearly_category_summary
    [Query.year (query req); userId req]
    (fun rows => Response 200 (RowsBody rows))
    "Failed to retrieve yearly category summary" d.

(** [GET /reports/yearly-summary] *)
Definition yearlySummary : handler := fun w req d =>
  answer w select_yearly_summary
    [Query.year (query req); userId req]
    (fun rows => Response 200 (RowsBody rows))
    "Failed to retrieve yearly summary data" d.

(** [GET /reports/weekly-summary] *)
Definition weeklySummary : handler := fun w req d =>
  answer w select_weekly_summary
    [Query.startDate (query req); Query.endDate (query req); userId req]
    (fun rows => Response 200 (RowsBody rows))
    "Failed to retrieve weekly summary data" d.

(** [PUT /expenses/:id] *)
Definition updateExpense : handler := fun w req d =>
  let expenseId := JS.of_parseInt (parseInt (params_id req)) in
  answer w update_expense
    [Body.amount (body req); Body.description (body req);
     Body.category (body req); Body.created_at (body req);
     expenseId; userId req]
    (fun rows =>
       if Nat.eqb (rowCount rows) 0 then
         Response 404
           (ErrorBody "Expense not found or you do not have permission to edit it.")
       else Response 200 (RowBody (head rows)))
    "Failed to update expense" d.

(** [DELETE /expenses/:id] *)
Definition deleteExpense : handler := fun w req d =>
  answer w delete_expense [JS.Str (params_id req); userId req]
    (fun rows =>
       if Nat.eqb (rowCount rows) 0 then
         Response 404 (ErrorBody "Expense not found or not authorized")
       else Response 200 (MessageBody "Expense deleted successfully"))
    "Failed to delete expense" d.

(** [GET /expenses/range] *)
Definition listExpensesRange : handler := fun w req d =>
  answer w select_expenses_range
    [Query.startDate (query req); Query.endDate (query req); userId req]
    (fun rows => Response 200 (RowsBody rows))
    "Failed to retrieve expenses for the date range" d.

(** [GET /reports/range-category-summary] *)
Definition rangeCategorySummary : handler := fun w req d =>
  answer w select_range_category_summary
    [Query.startDate (query req); Query.endDate (query req); userId req]
    (fun rows => Response 200 (RowsBody rows))
    "Failed to retrieve category summary" d.

(** [GET /reports/range-daily-summary] *)
Definition rangeDailySummary : handler := fun w req d =>
  answer w select_range_daily_summary
    [Query.startDate (query req); Query.endDate (query req); userId req]
    (fun rows => Response 200 (RowsBody rows))
    "Failed to retrieve daily summary" d.

Definition row_name (r : row) : option string :=
  match r with
  | NameRow name => name
  | _ => None
  end.

(** [GET /categories] *)
Definition listCategories : handler := fun w req d =>
  answer w select_categories [userId req]
    (fun rows => Response 200 (NamesBody (map row_name rows)))
    "Failed to retrieve categories" d.

(** [POST /categories] *)
Definition createCategory : handler := fun w req d =>
  let name := Body.name (body req) in
  if negb (JS.truthy name) then
    (Response 400 (ErrorBody "Category name is required"), d)
  else
    try_catch
      match pool_query w insert_category [name; userId req] d with
      | (inl err, d') => (inl err, d')
      | (inr rows, d') => (inr (Response 201 (RowBody (head rows))), d')
      end
      (fun err =>
         if JS.strict_eq_string (code err) "23505" then
           Response 409 (ErrorBody "Category already exists")
         else Response 500 (ErrorBody "Failed to add category")).

(** [DELETE /categories] *)
Definition deleteCategory : handler := fun w req d =>
  let name := Body.name (body req) in
  if negb (JS.truthy name) then
    (Response 400 (ErrorBody "Category name is required"), d)
  else
    answer w delete_category [name; userId req]
      (fun rows =>
         if Nat.eqb (rowCount rows) 0 then
           Response 404
             (ErrorBody "Category not found or you do not have permission to delete it.")
         else Response 200 (MessageBody "Category deleted successfully"))
      "Failed to delete category" d.

(** ** The routing table *)

Inductive route :=
| PostRegister | PostLogin
| PostExpenses | GetExpenses | PutExpense | DeleteExpense | GetExpensesRange
| GetCategorySummary | GetMonthlySummary | GetWeeklyCategorySummary
| GetYearlyCategorySummary | GetYearlySummary | GetWeeklySummary
| GetRangeCategorySummary | GetRangeDailySummary
| GetCategories | PostCategories | DeleteCategories.

(** [app.METHOD(path, ...middlewares, handler)] as registered. *)
Definition app (r : route) : list middleware * handler :=
  match r with
  | PostRegister => ([], register)
  | PostLogin => ([], login)
  | PostExpenses => ([authMiddleware], createExpense)
  | GetExpenses => ([authMiddleware], listExpenses)
  | GetCategorySummary => ([authMiddleware], categorySummary)
  | GetMonthlySummary => ([authMiddleware], monthlySummary)
  | GetWeeklyCategorySummary => ([authMiddleware], weeklyCategorySummary)
  | GetYearlyCategorySummary => ([authMiddleware], yearlyCategorySummary)
  | GetYearlySummary => ([authMiddleware], yearlySummary)
  | GetWeeklySummary => ([authMiddleware], weeklySummary)
  | PutExpense => ([authMiddleware], updateExpense)
  | DeleteExpense => ([authMiddleware], deleteExpense)
  | GetExpensesRange => ([authMiddleware], listExpensesRange)
  | GetRangeCategorySummary => ([authMiddleware], rangeCategorySummary)
  | GetRangeDailySummary => ([authMiddleware], rangeDailySummary)
  | GetCategories => ([authMiddleware], listCategories)
  | PostCategories => ([authMiddleware], createCategory)
  | DeleteCategories => ([authMiddleware], deleteCategory)
  end.

(** Express runs the middlewares of a route in order; the handler runs
    only if each of them called [next()]. *)
Fixpoint chain (ms : list middleware) (h : handler) : handler :=
  fun w req d =>
    match ms with
    | [] => h w req d
    | m :: ms' =>
        match m w req with
        | Reply res => (res, d)
        | Next req' => chain ms' h w req' d
        end
    end.

Definition serve (r : route) : handler :=
  chain (fst (app r)) (snd (app r)).

End Handlers.

(** ** A reference platform *)

(** Stand-ins for the libraries and for the input functions of the store,
    small enough to run the handlers on concrete requests: decimal
    integers, decimal numbers with a fraction, ISO dates
    ([YYYY-MM-DD]) and timestamps ([YYYY-MM-DD HH:MM:SS], or a date alone
    for its midnight), tokens that name their user and never expire, and
    a hash that is the password behind a fixed prefix. *)
Module Reference.

Definition digits (s : string) : option Z :=
  match s with
  | EmptyString => None
  | _ => Z.of_uint <$> NilEmpty.uint_of_string s
  end.

Definition integer (s : string) : option Z :=
  Z.of_int <$> NilZero.int_of_string s.

Definition read_int4 (s : string) : option Z :=
  match integer s with
  | Some n =>
      if (-2147483648 <=? n) && (n <=? 2147483647) then Some n else None
  | None => None
  end.

(** the text before the first dot, and the text after it if any *)
Fixpoint split_dot (s : string) : string * option string :=
  match s with
  | EmptyString => (EmptyString, None)
  | String c s' =>
      if Ascii.eqb c "." then (EmptyString, Some s')
      else let '(a, b) := split_dot s' in (String c a, b)
  end.

Definition numeric (s : string) : option Q :=
  match split_dot s with
  | (whole, None) => inject_Z <$> integer s
  | (whole, Some frac) =>
      match integer whole, digits frac with
      | Some w, Some f =>
          let q := (inject_Z (Z.abs w)
                    + Qmake f (Pos.pow 10 (Pos.of_nat (String.length frac))))%Q in
          Some (Qred (if String.prefix "-" whole then - q else q)%Q)
      | _, _ => None
      end
  end.

Definition field (s : string) (start len : nat) : option Z :=
  digits (substring start len s).

Definition is_at (s : string) (i : nat) (c : ascii) : bool :=
  match get i s with
  | Some c' => Ascii.eqb c' c
  | None => false
  end.

Definition read_date (s : string) : option date :=
  if Nat.eqb (String.length s) 10 && is_at s 4 "-" && is_at s 7 "-" then
    match field s 0 4, field s 5 2, field s 8 2 with
    | Some y, Some m, Some d =>
        if (1 <=? m) && (m <=? 12) && (1 <=? d) && (d <=? 31)
        then Some (Date y m d) else None
    | _, _, _ => None
    end
  else None.

Definition read_timestamp (s : string) : option timestamp :=
  if Nat.eqb (String.length s) 10 then midnight <$> read_date s
  else if Nat.eqb (String.length s) 19
          && (is_at s 10 " " || is_at s 10 "T")
          && is_at s 13 ":" && is_at s 16 ":" then
    match read_date (substring 0 10 s), field s 11 2, field s 14 2, field s 17 2 with
    | Some d, Some h, Some m, Some sec =>
        if (h <=? 23) && (m <=? 59) && (sec <=? 59)
        then Some (Timestamp d (((h * 60 + m) * 60 + sec) * 1000000))
        else None
    | _, _, _, _ => None
    end
  else None.

(** an optional minus sign and the digits that follow it *)
Definition parse_int (s : string) : option Z :=
  match s with
  | String "-" s' => (fun n => - Z.of_nat n) <$> number_prefix s' None
  | _ => Z.of_nat <$> number_prefix s None
  end.

Definition sign (userId : Z) (_ : timestamp) : string :=
  "user." ++ JS.number_text userId.

Definition verify (token : string) (_ : timestamp) : option Z :=
  if String.prefix "user." token
  then integer (substring 5 (String.length token - 5) token)
  else None.

Definition hash (password : JS.value) (salt : string) : option string :=
  match password with
  | JS.Str p => Some ("$2a$10$" ++ p)
  | _ => None
  end.

Definition compare (password : JS.value) (hash : string) : option bool :=
  match password with
  | JS.Str p => Some (String.eqb hash ("$2a$10$" ++ p))
  | _ => None
  end.

Lemma integer_number_text n : integer (JS.number_text n) = Some n.
Proof.
  unfold integer, JS.number_text.
  rewrite NilZero.isi.
  - simpl. f_equal. apply DecimalZ.of_to.
  - destruct n; simpl; try discriminate.
    intros [= E]. now apply Unsigned.to_uint_nonnil in E.
  - destruct n; simpl; try discriminate.
    intros [= E]. now apply Unsigned.to_uint_nonnil in E.
Qed.

Lemma int4_number_text n :
  -2147483648 <= n <= 2147483647 -> read_int4 (JS.number_text n) = Some n.
Proof.
  intros [Hlo Hhi]. unfold read_int4. rewrite integer_number_text.
  apply Z.leb_le in Hlo, Hhi. now rewrite Hlo, Hhi.
Qed.

(** [not_null] chooses the declaration of [expenses.created_at]. *)
(** the order of the C collation: byte by byte *)
Lemma string_leb_trans s1 s2 s3 :
  String.leb s1 s2 = true -> String.leb s2 s3 = true -> String.leb s1 s3 = true.
Proof.
  unfold String.leb. revert s2 s3.
  induction s1 as [|c1 s1 IH]; intros [|c2 s2] [|c3 s3]; cbn; try easy.
  unfold Ascii.compare.
  destruct (N.compare_spec (N_of_ascii c1) (N_of_ascii c2)) as [E12|L12|G12];
    destruct (N.compare_spec (N_of_ascii c2) (N_of_ascii c3)) as [E23|L23|G23];
    destruct (N.compare_spec (N_of_ascii c1) (N_of_ascii c3)) as [E13|L13|G13];
    try easy; try lia.
  apply IH.
Qed.

Definition platform (not_null : bool) : Platform := {|
  parseInt := parse_int;
  jwt_sign := sign;
  jwt_verify := verify;
  jwt_verify_empty := fun _ => eq_refl;
  bcrypt_hash := hash;
  bcrypt_compare := compare;
  int4_in := read_int4;
  numeric_in := numeric;
  timestamp_in := read_timestamp;
  date_in := read_date;
  int4_in_number_text := int4_number_text;
  collate := String.leb;
  collate_total := String.leb_total;
  collate_trans := string_leb_trans;
  created_at_not_null := not_null
|}.

End Reference.

(** ** The first server file *)

(** The create route of the earlier server of the repository, which has
    no accounts: it leaves [created_at] out of the column list, so the
    default of the column fills it in. *)
Module Legacy.
Section Legacy.
Context `{Platform}.

(** Modelled from the spec: a [created_at] left out of the column list
    takes its default, the current time.  That table has no owner
    column yet; the row is given a NULL one here. *)
Definition insert_expense : statement := {|
  text := "INSERT INTO expenses (amount, description, category) VALUES ($1, $2, $3) RETURNING *";
  run := fun now ps d =>
    read amount := input numeric_in (param ps 1) else d in
    let id := expenses_id_seq d + 1 in
    let e := Expense.Build id amount (param ps 2) (param ps 3) (Some now) None in
    (inr [ExpenseRow e],
     set_expenses (expenses d ++ [e]) (set_expenses_id_seq id d))
|}.

(** [POST /expenses] *)
Definition createExpense : handler := fun w req d =>
  answer w insert_expense
    [Body.amount (body req); Body.description (body req);
     Body.category (body req)]
    (fun rows => Response 201 (RowBody (head rows)))
    "Failed to add expense" d.

(** The other routes of that file.  Their queries are sent without
    values when their text has no parameter. *)
Definition select_expenses : statement := {|
  text := "SELECT * FROM expenses ORDER BY created_at DESC";
  run := fun _ _ d => (inr (map ExpenseRow (newest_first (expenses d))), d)
|}.

(** [GET /expenses] *)
Definition listExpenses : handler := fun w req d =>
  answer w select_expenses []
    (fun rows => Response 200 (RowsBody rows))
    "Failed to retrieve expenses" d.

Definition select_category_summary : statement := {|
  text := "SELECT category, SUM(amount) AS total_amount FROM expenses GROUP BY category ORDER BY total_amount DESC";
  run := fun _ _ d => (inr (by_category (expenses d)), d)
|}.

(** [GET /reports/category-summary] *)
Definition categorySummary : handler := fun w req d =>
  answer w select_category_summary []
    (fun rows => Response 200 (RowsBody rows))
    "Failed to retrieve report data" d.

Definition delete_expense : statement := {|
  text := "DELETE FROM expenses WHERE id = $1 RETURNING *";
  run := fun _ ps d =>
    read id := input int4_in (param ps 1) else d in
    (inr (map ExpenseRow
            (filter (fun e => Sql.eq_int (Some (Expense.id e)) id) (expenses d))),
     set_expenses
       (filter (fun e => negb (Sql.eq_int (Some (Expense.id e)) id)) (expenses d)) d)
|}.

(** [DELETE /expenses/:id] *)
Definition deleteExpense : handler := fun w req d =>
  answer w delete_expense [JS.Str (params_id req)]
    (fun rows =>
       if Nat.eqb (rowCount rows) 0 then
         Response 404 (ErrorBody "Expense not found")
       else Response 200 (MessageBody "Expense deleted successfully"))
    "Failed to delete expense" d.
End Legacy.
End Legacy.

(** ** The vocabulary of the properties *)

Section Vocabulary.
Context `{Platform}.

(** The range of an [integer] column. *)
Definition int4 (n : Z) : Prop := -2147483648 <= n <= 2147483647.

(** What [jwt.verify] makes of the header: the user id of a token that
    verifies, nothing for a value that is not a string (it throws on
    those) or a token that fails the signature or expiry check. *)
Definition verified (w : env) (header : JS.value) : option Z :=
  match header with
  | JS.Str s => jwt_verify s (now w)
  | _ => None
  end.

(** The routes that serve expenses, categories and reports. *)
Definition guarded (r : route) : Prop :=
  r <> PostRegister /\ r <> PostLogin.

(** A category of that name owned by that user is on file. *)
Definition has_category (n : string) (uid : Z) (d : db) : Prop :=
  exists c, c ∈ categories d /\ Category.name c = Some n
            /\ Category.user_id c = Some uid.

(** Some expense row has this id and belongs to this user. *)
Definition owns (uid id : Z) (d : db) : Prop :=
  exists e, e ∈ expenses d /\ Expense.id e = id
            /\ Expense.user_id e = Some uid.

(** A user row already carries this name or this e-mail address. *)
Definition taken (u e : string) (d : db) : Prop :=
  exists x, x ∈ users d /\ (User.username x = u \/ User.email x = e).

(** No user row carries the name sent. *)
Definition unknown_user (req : request) (d : db) : Prop :=
  forall x, x ∈ users d ->
            prepareValue (Body.username (body req)) <> Some (User.username x).

(** Some user row carries the name sent, and the password sent does
    not match the hash of any row of that name. *)
Definition wrong_password (req : request) (d : db) : Prop :=
  (exists x, x ∈ users d
             /\ prepareValue (Body.username (body req)) = Some (User.username x))
  /\ forall x, x ∈ users d ->
       prepareValue (Body.username (body req)) = Some (User.username x) ->
       bcrypt_compare (Body.password (body req)) (User.password_hash x)
       = Some false.


(** The rows the range reports aggregate. *)
Definition in_date_range (uid : Z) (lo hi : date) (d : db) : list Expense.t :=
  filter (fun e => owned_by (Some uid) e
                   && created_date_between (Some lo) (Some hi) e)
         (expenses d).

(** The rows the weekly reports aggregate. *)
Definition in_time_range (uid : Z) (lo hi : timestamp) (d : db) : list Expense.t :=
  filter (fun e => owned_by (Some uid) e
                   && created_between (Some lo) (Some hi) e)
         (expenses d).

(** The first instant of a month, and the month after a month. *)
Definition first_instant (y m : Z) : timestamp := Timestamp (Date y m 1) 0.

Definition following_month (y m : Z) : Z * Z :=
  if Z.eqb m 12 then (y + 1, 1) else (y, m + 1).


End Vocabulary.

(** ** The vocabulary of the properties of the whole table of routes *)

(** The table a route writes to, if any. *)
Inductive table := Users | Expenses | Categories.

Definition target (r : route) : option table :=
  match r with
  | PostRegister => Some Users
  | PostExpenses | PutExpense | DeleteExpense => Some Expenses
  | PostCategories | DeleteCategories => Some Categories
  | _ => None
  end.

(** The statuses a route can answer with. *)
Definition statuses (r : route) : list Z :=
  match r with
  | PostRegister => [201; 400; 500]
  | PostLogin => [200; 400; 500]
  | PostExpenses => [201; 401; 500]
  | PutExpense | DeleteExpense => [200; 401; 404; 500]
  | PostCategories => [201; 400; 401; 409; 500]
  | DeleteCategories => [200; 400; 401; 404; 500]
  | _ => [200; 401; 500]
  end.

(** The message a route gives with status 500. *)
Definition failure_message (r : route) : string :=
  match r with
  | PostRegister => "Server error during registration"
  | PostLogin => "Server error during login"
  | PostExpenses => "Failed to add expense"
  | GetExpenses => "Failed to retrieve expenses"
  | PutExpense => "Failed to update expense"
  | DeleteExpense => "Failed to delete expense"
  | GetExpensesRange => "Failed to retrieve expenses for the date range"
  | GetCategorySummary => "Failed to retrieve report data"
  | GetMonthlySummary => "Failed to retrieve monthly summary data"
  | GetWeeklyCategorySummary => "Failed to retrieve weekly category summary"
  | GetYearlyCategorySummary => "Failed to retrieve yearly category summary"
  | GetYearlySummary => "Failed to retrieve yearly summary data"
  | GetWeeklySummary => "Failed to retrieve weekly summary data"
  | GetRangeCategorySummary => "Failed to retrieve category summary"
  | GetRangeDailySummary => "Failed to retrieve daily summary"
  | GetCategories => "Failed to retrieve categories"
  | PostCategories => "Failed to add category"
  | DeleteCategories => "Failed to delete category"
  end.

(** A response fits a route when its status is one of the route's, an
    answer of 400 or above carries nothing but a message, and the
    message of a 500 is the fixed one of the route. *)
Definition fits (r : route) (res : response) : Prop :=
  status res ∈ statuses r
  /\ (400 <= status res -> exists m, payload res = ErrorBody m)
  /\ (status res = 500 -> payload res = ErrorBody (failure_message r)).

(** What the unique constraint of [categories] compares: the pair of a
    row, unless one of the two is NULL. *)
Definition category_key (c : Category.t) : option (string * Z) :=
  match Category.name c, Category.user_id c with
  | Some n, Some u => Some (n, u)
  | _, _ => None
  end.

(** A store as the sequences and the unique constraints leave it: no id
    beyond the last value drawn, no id twice, no user name or e-mail
    address twice, no (name, user) pair of categories twice. *)
Record consistent (d : db) : Prop := Consistent {
  user_ids_drawn : Forall (fun u => User.id u <= users_id_seq d) (users d);
  user_ids_distinct : NoDup (map User.id (users d));
  usernames_distinct : NoDup (map User.username (users d));
  emails_distinct : NoDup (map User.email (users d));
  expense_ids_drawn :
    Forall (fun e => Expense.id e <= expenses_id_seq d) (expenses d);
  expense_ids_distinct : NoDup (map Expense.id (expenses d));
  category_pairs_distinct : NoDup (omap category_key (categories d))
}.

(** The expenses of a user, and everybody else's. *)
Definition own_expenses (uid : Z) (d : db) : list Expense.t :=
  filter (fun e => owned_by (Some uid) e) (expenses d).

Definition foreign_expenses (uid : Z) (d : db) : list Expense.t :=
  filter (fun e => negb (owned_by (Some uid) e)) (expenses d).


Definition foreign_categories (uid : Z) (d : db) : list Category.t :=
  filter (fun c => negb (Sql.eq_int (Category.user_id c) (Some uid)))
         (categories d).

(** ** The vocabulary of the properties of the statements and the reports *)

Section Effects.
Context `{Platform}.

(** A statement that leaves the store as it was, whatever it is sent. *)
Definition reads (st : statement) : Prop :=
  forall now ps d, snd (run st now ps d) = d.

(** What a write to table [t] (or no write at all) keeps of a store. *)
Definition keeps (t : option table) (d d' : db) : Prop :=
  (t <> Some Users ->
   users d' = users d /\ users_id_seq d' = users_id_seq d)
  /\ (t <> Some Expenses ->
      expenses d' = expenses d /\ expenses_id_seq d' = expenses_id_seq d)
  /\ (t <> Some Categories -> categories d' = categories d).

(** The routes that select from [expenses]. *)
Definition reads_expenses (r : route) : bool :=
  match r with
  | GetExpenses | GetExpensesRange | GetCategorySummary | GetMonthlySummary
  | GetWeeklyCategorySummary | GetYearlyCategorySummary | GetYearlySummary
  | GetWeeklySummary | GetRangeCategorySummary | GetRangeDailySummary => true
  | _ => false
  end.


(** The query parameters that bound the time window of a report. *)
Definition window (r : route) (req : request) : list JS.value :=
  match r with
  | GetMonthlySummary => [Query.month (query req); Query.year (query req)]
  | GetYearlySummary | GetYearlyCategorySummary => [Query.year (query req)]
  | GetWeeklySummary | GetWeeklyCategorySummary | GetExpensesRange
  | GetRangeCategorySummary | GetRangeDailySummary =>
      [Query.startDate (query req); Query.endDate (query req)]
  | _ => []
  end.

(** A value that is sent as text which the input function of the column
    type rejects. *)
Definition unreadable {A} (f : string -> option A) (v : JS.value) : Prop :=
  exists s, prepareValue v = Some s /\ f s = None.

(** The store after a history of requests, each to a route at some
    moment. *)
Fixpoint replay (log : list (route * env * request)) (d : db) : db :=
  match log with
  | [] => d
  | (r, w, req) :: log' => replay log' (snd (serve r w req d))
  end.

End Effects.

(** The store before the first request. *)
Definition empty_store : db := Db [] 0 [] 0 [].

(** ** The vocabulary of the reports *)

(** Conditions on the time of an expense: its month and year, its
    year, an interval of instants and an interval of days, the bounds
    included.  A number sent as a parameter is compared as a number. *)
Definition month_is (m y : Q) (t : timestamp) : Prop :=
  (inject_Z (dmonth (on t)) == m)%Q /\ (inject_Z (dyear (on t)) == y)%Q.

Definition year_is (y : Q) (t : timestamp) : Prop :=
  (inject_Z (dyear (on t)) == y)%Q.

Definition within (lo hi t : timestamp) : Prop :=
  timestamp_leb lo t = true /\ timestamp_leb t hi = true.

Definition on_days (lo hi : date) (t : timestamp) : Prop :=
  date_leb lo (on t) = true /\ date_leb (on t) hi = true.

(** An expense that has a time, of which [P] holds. *)
Definition made (P : timestamp -> Prop) (e : Expense.t) : Prop :=
  match Expense.created_at e with
  | Some t => P t
  | None => False
  end.

Global Instance Qeq_decision (a b : Q) : Decision (a == b)%Q := Qeq_dec a b.

Global Instance month_is_dec m y t : Decision (month_is m y t).
Proof. unfold month_is. apply _. Defined.

Global Instance year_is_dec y t : Decision (year_is y t).
Proof. unfold year_is. apply _. Defined.

Global Instance within_dec lo hi t : Decision (within lo hi t).
Proof. unfold within. apply _. Defined.

Global Instance on_days_dec lo hi t : Decision (on_days lo hi t).
Proof. unfold on_days. apply _. Defined.

Global Instance made_dec P `{!forall t, Decision (P t)} e : Decision (made P e).
Proof. unfold made. destruct (Expense.created_at e); apply _. Defined.




(** ** A small store *)

(** Concrete requests for the reference platform, over a small store: Alice (user 1) has three expenses, two
    on 3 January 2024 (one at midnight, one at ten in the morning) and
    one in the last second of 1 January; Bob (user 2) has one. *)
Module Scenario.

Definition nullable : Platform := Reference.platform false.
Definition strict : Platform := Reference.platform true.

Definition alice : User.t := User.Build 1 "alice" "a@x.com" "$2a$10$pw123".
Definition bob : User.t := User.Build 2 "bob" "b@x.com" "$2a$10$hunter2".

Definition jan (day : Z) (usec : Z) : option timestamp :=
  Some (Timestamp (Date 2024 1 day) usec).

Definition bus : Expense.t :=
  Expense.Build 1 (Some 10%Q) (Some "bus") (Some "transport")
                (jan 3 36000000000) (Some 1).
Definition coffee : Expense.t :=
  Expense.Build 2 (Some (5 # 2)) (Some "coffee") (Some "food") (jan 3 0) (Some 1).
Definition supper : Expense.t :=
  Expense.Build 3 (Some 4%Q) (Some "supper") (Some "food")
                (jan 1 86399000000) (Some 1).
Definition rent : Expense.t :=
  Expense.Build 4 (Some 99%Q) (Some "rent") (Some "home")
                (jan 3 43200000000) (Some 2).

Definition ledger : db :=
  Db [alice; bob] 2 [bus; coffee; supper; rent] 4
     [Category.Build (Some "food") (Some 1)].

Definition noon : timestamp := Timestamp (Date 2024 1 5) 43200000000.
Definition up : env := Env noon "$2a$10$" None.
Definition down : env := Env noon "$2a$10$" (Some (JsError "connect ECONNREFUSED")).

Definition no_query : Query.t :=
  Query.Build JS.Undefined JS.Undefined JS.Undefined JS.Undefined.
Definition no_body : Body.t :=
  Body.Build JS.Undefined JS.Undefined JS.Undefined JS.Undefined
             JS.Undefined JS.Undefined JS.Undefined JS.Undefined.

(** a request carrying Alice's token *)
Definition as_alice (id : string) (q : Query.t) (b : Body.t) : request :=
  Request (JS.Str "user.1") id q b JS.Undefined.
(** the same request once the guard has let it in *)
Definition alice_in (id : string) (q : Query.t) (b : Body.t) : request :=
  Request (JS.Str "user.1") id q b (JS.Num 1).
Definition anonymous (q : Query.t) (b : Body.t) : request :=
  Request JS.Undefined "" q b JS.Undefined.

Definition expense_body (amount description category created_at : JS.value)
  : Body.t :=
  Body.Build JS.Undefined JS.Undefined JS.Undefined amount description
             category created_at JS.Undefined.
Definition account_body (username email password : JS.value) : Body.t :=
  Body.Build username email password JS.Undefined JS.Undefined JS.Undefined
             JS.Undefined JS.Undefined.
Definition category_body (name : JS.value) : Body.t :=
  Body.Build JS.Undefined JS.Undefined JS.Undefined JS.Undefined JS.Undefined
             JS.Undefined JS.Undefined name.

Definition first_days : Query.t :=
  Query.Build JS.Undefined JS.Undefined (JS.Str "2024-01-01") (JS.Str "2024-01-03").
Definition month_only : Query.t :=
  Query.Build (JS.Str "1") JS.Undefined JS.Undefined JS.Undefined.
Definition january : Query.t :=
  Query.Build (JS.Str "1") (JS.Str "2024") JS.Undefined JS.Undefined.

(** the requests of the worked examples *)
Definition edit : Body.t :=
  expense_body (JS.Str "1") (JS.Str "mine now") (JS.Str "food")
               (JS.Str "2024-01-04").

Definition tea : Body.t :=
  expense_body (JS.Str "3") (JS.Str "tea") (JS.Str "food") JS.Undefined.

Definition tea_row : Expense.t :=
  Expense.Build 5 (Some 3%Q) (Some "tea") (Some "food") None (Some 1).

Definition again : request :=
  anonymous no_query
    (account_body (JS.Str "alice") (JS.Str "other@x.com") (JS.Str "pw")).

Definition stranger : request :=
  anonymous no_query (account_body (JS.Str "carol") JS.Undefined (JS.Str "pw123")).

Definition mistyped : request :=
  anonymous no_query (account_body (JS.Str "alice") JS.Undefined (JS.Str "pw124")).

(** two logins that send no password, under a name on file and under
    a name on no row *)
Definition alice_without_password : request :=
  anonymous no_query (account_body (JS.Str "alice") JS.Undefined JS.Undefined).

Definition carol_without_password : request :=
  anonymous no_query (account_body (JS.Str "carol") JS.Undefined JS.Undefined).

Definition jan1 : date := Date 2024 1 1.

Definition jan3 : date := Date 2024 1 3.

(** further requests: a newcomer, a login without a string password, an
    expense with a time, an unreadable one, a new category *)
Definition newcomer : request :=
  anonymous no_query
    (account_body (JS.Str "carol") (JS.Str "c@x.com") (JS.Str "pw123")).

Definition carol : User.t := User.Build 3 "carol" "c@x.com" "$2a$10$pw123".

Definition wordless : request :=
  anonymous no_query (account_body (JS.Str "alice") JS.Undefined (JS.Num 5)).

Definition dated_tea : Body.t :=
  expense_body (JS.Str "3") (JS.Str "tea") (JS.Str "food") (JS.Str "2024-01-04").

Definition dated_tea_row : Expense.t :=
  Expense.Build 5 (Some 3%Q) (Some "tea") (Some "food") (jan 4 0) (Some 1).

Definition garbled : Body.t :=
  expense_body (JS.Str "lots") (JS.Str "tea") (JS.Str "food") (JS.Str "2024-01-04").

Definition travel : Body.t := category_body (JS.Str "travel").

Definition without_rent : db := set_expenses [bus; coffee; supper] ledger.

(** the ledger with categories of both users, out of order *)
Definition shelves : db :=
  Db [alice; bob] 2 [bus; coffee; supper; rent] 4
     [Category.Build (Some "travel") (Some 1);
      Category.Build (Some "home") (Some 2);
      Category.Build (Some "food") (Some 1)].


(** a history from the empty store: two registrations of the same
    name, a category twice, an expense, a delete of it *)
Definition history : list (route * env * request) :=
  [ (PostRegister, up, newcomer); (PostRegister, up, newcomer);
    (PostCategories, up, as_alice "" no_query travel);
    (PostCategories, up, as_alice "" no_query travel);
    (PostExpenses, up, as_alice "" no_query dated_tea);
    (DeleteExpense, up, as_alice "1" no_query no_body);
    (GetCategories, up, anonymous no_query no_body) ].

End Scenario.

(** * Properties *)

(** ** Order on calendar values *)

Lemma date_compare_refl a : date_compare a a = Eq.
Proof. unfold date_compare. now rewrite !Z.compare_refl. Qed.

Lemma date_compare_eq a b : date_compare a b = Eq -> a = b.
Proof.
  destruct a as [y m d], b as [y' m' d']. unfold date_compare. simpl.
  destruct (Z.compare_spec y y'); try discriminate.
  destruct (Z.compare_spec m m'); try discriminate.
  destruct (Z.compare_spec d d'); try discriminate.
  now subst.
Qed.

(** [date_leb] is the lexicographic order on (year, month, day). *)
Lemma date_leb_spec a b :
  date_leb a b = true <->
  dyear a < dyear b \/
  (dyear a = dyear b /\
   (dmonth a < dmonth b \/ (dmonth a = dmonth b /\ dday a <= dday b))).
Proof.
  unfold date_leb, date_compare, leb_of.
  destruct (Z.compare_spec (dyear a) (dyear b));
    destruct (Z.compare_spec (dmonth a) (dmonth b));
    destruct (Z.compare_spec (dday a) (dday b));
    split; intros; try discriminate; try reflexivity; lia.
Qed.

Lemma timestamp_leb_spec a b :
  timestamp_leb a b = true <->
  (date_leb (on a) (on b) = true /\ on a <> on b) \/
  (on a = on b /\ time a <= time b).
Proof.
  unfold timestamp_leb, timestamp_compare, date_leb.
  destruct (date_compare (on a) (on b)) eqn:E; simpl.
  - apply date_compare_eq in E.
    destruct (Z.compare_spec (time a) (time b)); simpl;
      split; intros; try discriminate; try reflexivity; intuition lia.
  - split; [intros _; left; split; [reflexivity|] | reflexivity].
    intros E'. rewrite E', date_compare_refl in E. discriminate.
  - split; [discriminate|].
    intros [[? _] | [E' _]]; [discriminate|].
    rewrite E', date_compare_refl in E. discriminate.
Qed.






(** ** Evaluating [pool.query] *)

Lemma pool_query_outage w st values d e :
  outage w = Some e -> pool_query w st values d = (inl e, d).
Proof. unfold pool_query. now intros ->. Qed.

Lemma pool_query_run w st values d :
  outage w = None ->
  parse_bind (text st) (length values) = None ->
  pool_query w st values d = run st (now w) (map prepareValue values) d.
Proof. unfold pool_query. now intros -> ->. Qed.

Lemma pool_query_untyped w st values d :
  parse_bind (text st) (length values) = Some (PgError indeterminate_datatype) ->
  exists e, pool_query w st values d = (inl e, d).
Proof.
  unfold pool_query. intros ->. destruct (outage w); eauto.
Qed.

Section Facts.
Context `{Platform}.

(** Every statement whose text is fixed mentions each of its parameters,
    so the check before the run lets it through with the values its
    handler sends; only the two texts built from the query string can
    fall short. *)
Lemma fixed_statements_are_typed :
  Forall (fun sn => parse_bind (text (fst sn)) (snd sn) = None)
    [(insert_user, 3); (select_user, 1); (insert_expense, 5);
     (select_monthly_summary, 3); (select_weekly_category_summary, 3);
     (select_yearly_category_summary, 2); (select_yearly_summary, 2);
     (select_weekly_summary, 3); (update_expense, 6); (delete_expense, 2);
     (select_expenses_range, 3); (select_range_category_summary, 3);
     (select_range_daily_summary, 3); (select_categories, 1);
     (insert_category, 2); (delete_category, 2)]%nat.
Proof. repeat constructor. Qed.

(** The user id the guard attached reads back as itself in an
    [integer] column. *)
Lemma input_user_id uid :
  int4 uid -> input int4_in (prepareValue (JS.Num uid)) = inr (Some uid).
Proof.
  intros R. simpl. unfold input. now rewrite int4_in_number_text.
Qed.

Lemma truthy_prepareValue v :
  JS.truthy v = true -> exists s, prepareValue v = Some s.
Proof. destruct v as [| |[]| | |]; simpl; intros; try discriminate; eauto. Qed.

Lemma db_eta d :
  Db (users d) (users_id_seq d) (expenses d) (expenses_id_seq d) (categories d) = d.
Proof. now destruct d. Qed.

End Facts.

(** ** The guard *)

Section Guard.
Context `{Platform}.

Lemma falsy_not_verified w v : JS.truthy v = false -> verified w v = None.
Proof.
  destruct v; simpl; try reflexivity.
  destruct (String.eqb_spec s ""); simpl; intros; try discriminate.
  subst. apply jwt_verify_empty.
Qed.

Lemma authMiddleware_rejects w req :
  verified w (authorization req) = None ->
  exists res, authMiddleware w req = Reply res /\ status res = 401.
Proof.
  unfold authMiddleware, verified.
  destruct (JS.truthy (authorization req)); simpl; [|eauto].
  destruct (authorization req); eauto.
  intros ->. eauto.
Qed.

Lemma authMiddleware_accepts w req uid :
  verified w (authorization req) = Some uid ->
  authMiddleware w req = Next (set_userId (JS.Num uid) req).
Proof.
  intros V. unfold authMiddleware.
  destruct (JS.truthy (authorization req)) eqn:T; simpl.
  - unfold verified in V. destruct (authorization req); try discriminate.
    now rewrite V.
  - apply (falsy_not_verified w) in T. congruence.
Qed.

Lemma serve_guarded r w req d :
  guarded r ->
  serve r w req d =
  match authMiddleware w req with
  | Reply res => (res, d)
  | Next req' => snd (app r) w req' d
  end.
Proof. intros [N1 N2]. destruct r; try reflexivity; congruence. Qed.

(** C2.  The guard answers 401 exactly when the Authorization header
    is absent or the token fails verification; otherwise it passes on
    a request whose [userId] is the decoded user id and which is
    otherwise the request it received; and every route other than
    register and login runs it before its handler, so that without a
    verified token such a route answers 401 and leaves the store as it
    was, and with one its handler runs on the request that carries the
    user id.  Register and login run no guard. *)
Theorem guard_before_every_resource_route w req :
  ((exists res, authMiddleware w req = Reply res) <->
   (authorization req = JS.Undefined \/ verified w (authorization req) = None))
  /\ (forall res, authMiddleware w req = Reply res -> status res = 401)
  /\ (forall uid, verified w (authorization req) = Some uid ->
        exists req',
          authMiddleware w req = Next req'
          /\ userId req' = JS.Num uid
          /\ req' = Request (authorization req) (params_id req) (query req)
                           (body req) (JS.Num uid)
          /\ forall r d, guarded r ->
                         serve r w req d = snd (app r) w req' d)
  /\ (forall r d, guarded r ->
        (verified w (authorization req) = None ->
         exists res, serve r w req d = (res, d) /\ status res = 401)
        /\ (forall uid, verified w (authorization req) = Some uid ->
              serve r w req d
              = snd (app r) w
                  (Request (authorization req) (params_id req) (query req)
                           (body req) (JS.Num uid)) d))
  /\ (forall d, serve PostRegister w req d = register w req d
                /\ serve PostLogin w req d = login w req d).
Proof.
  split; [split|split; [|split; [|split; [|split; reflexivity]]]].
  - intros [res R]. right.
    destruct (verified w (authorization req)) as [uid|] eqn:V; [|reflexivity].
    rewrite (authMiddleware_accepts _ _ _ V) in R. discriminate.
  - intros [A | V].
    + destruct (authMiddleware_rejects w req) as (res & R & _); eauto.
      now rewrite A.
    + destruct (authMiddleware_rejects w req V) as (res & R & _); eauto.
  - intros res R.
    destruct (verified w (authorization req)) as [uid|] eqn:V.
    + rewrite (authMiddleware_accepts _ _ _ V) in R. discriminate.
    + destruct (authMiddleware_rejects w req V) as (res' & R' & S).
      congruence.
  - intros uid V.
    exists (Request (authorization req) (params_id req) (query req)
                    (body req) (JS.Num uid)).
    split; [exact (authMiddleware_accepts _ _ _ V)|].
    split; [reflexivity|]. split; [reflexivity|].
    intros r d G. rewrite serve_guarded by assumption.
    now rewrite (authMiddleware_accepts _ _ _ V).
  - intros r d G. split.
    + intros V. rewrite serve_guarded by assumption.
      destruct (authMiddleware_rejects w req V) as (res & -> & S). eauto.
    + intros uid V. rewrite serve_guarded by assumption.
      now rewrite (authMiddleware_accepts _ _ _ V).
Qed.

End Guard.

(** ** Categories *)

Section Categories.
Context `{Platform}.

Lemma named_spec n uid c :
  named (Some n) (Some uid) c = true <->
  Category.name c = Some n /\ Category.user_id c = Some uid.
Proof.
  unfold named, Sql.eq_text, Sql.eq_int.
  destruct (Category.name c) as [n'|], (Category.user_id c) as [u'|];
    simpl; rewrite ?andb_true_iff, ?String.eqb_eq, ?Z.eqb_eq;
    split; intros; try discriminate; intuition congruence.
Qed.

Lemma categories_conflict_spec n uid d :
  categories_conflict (Some n) (Some uid) (categories d) = true <->
  has_category n uid d.
Proof.
  unfold categories_conflict. rewrite existsb_exists. unfold has_category.
  split; intros (c & I & N); exists c.
  - apply named_spec in N. rewrite list_elem_of_In. tauto.
  - rewrite <- list_elem_of_In, named_spec. tauto.
Qed.

(** C9.  Deleting a category with an absent or empty name (any value
    that [!name] takes for missing: undefined, null, the empty string)
    answers 400 with "Category name is required" whatever the state of
    the pool, and leaves the store as it was: the statement is never
    sent.  So does the route, for a request whose token verifies. *)
Theorem deleteCategory_requires_name w req d :
  JS.truthy (Body.name (body req)) = false ->
  deleteCategory w req d
  = (Response 400 (ErrorBody "Category name is required"), d)
  /\ (forall uid, verified w (authorization req) = Some uid ->
         serve DeleteCategories w req d
         = (Response 400 (ErrorBody "Category name is required"), d)).
Proof.
  intros F. split.
  - unfold deleteCategory. now rewrite F.
  - intros uid V. unfold serve. cbn [app fst snd chain].
    rewrite (authMiddleware_accepts w req uid V).
    unfold deleteCategory. cbn [set_userId body]. now rewrite F.
Qed.

(** C8.  Creating a category for the user the guard let in: an absent
    or empty name answers 400 whatever the state of the pool and leaves
    the store as it was; when the pool runs the statement, a name this
    user already has answers 409 and changes nothing, and any other
    name is returned with 201 and the store afterwards is the store
    before with one more category at the end, of that name and of this
    user: users, expenses and both sequences are as they were. *)
Theorem createCategory_outcomes w req d uid :
  userId req = JS.Num uid -> int4 uid ->
  (JS.truthy (Body.name (body req)) = false ->
   forall w', createCategory w' req d
              = (Response 400 (ErrorBody "Category name is required"), d))
  /\ (forall n,
        JS.truthy (Body.name (body req)) = true ->
        prepareValue (Body.name (body req)) = Some n ->
        outage w = None ->
        (has_category n uid d ->
         createCategory w req d
         = (Response 409 (ErrorBody "Category already exists"), d))
        /\ (~ has_category n uid d ->
            createCategory w req d
            = (Response 201 (RowBody (Some (NameRow (Some n)))),
               Db (users d) (users_id_seq d) (expenses d) (expenses_id_seq d)
                  (categories d ++ [Category.Build (Some n) (Some uid)])))).
Proof.
  intros U R. split.
  - intros F w'. unfold createCategory. now rewrite F.
  - intros n T N O.
    assert (E : createCategory w req d
                = try_catch
                    match run insert_category (now w)
                            [Some n; prepareValue (JS.Num uid)] d with
                    | (inl err, d') => (inl err, d')
                    | (inr rows, d') =>
                        (inr (Response 201 (RowBody (head rows))), d')
                    end
                    (fun err =>
                       if JS.strict_eq_string (code err) "23505" then
                         Response 409 (ErrorBody "Category already exists")
                       else Response 500 (ErrorBody "Failed to add category"))).
    { unfold createCategory. rewrite T. simpl negb. cbv iota.
      rewrite pool_query_run by (assumption || reflexivity).
      simpl map. now rewrite U, N. }
    rewrite E. clear E.
    cbn [run insert_category]. unfold param. cbn [lookup list_lookup mjoin option_join Nat.sub].
    rewrite (input_user_id uid R).
    split; intros C.
    + apply categories_conflict_spec in C. now rewrite C.
    + destruct (categories_conflict (Some n) (Some uid) (categories d)) eqn:X.
      * apply categories_conflict_spec in X. contradiction.
      * reflexivity.
Qed.

End Categories.

(** ** Expenses: update and delete *)

Section Ownership.
Context `{Platform}.

Lemma targeted_spec id uid e :
  targeted (Some id) (Some uid) e = true <->
  Expense.id e = id /\ Expense.user_id e = Some uid.
Proof.
  unfold targeted, Sql.eq_int.
  destruct (Expense.user_id e) as [u|]; simpl;
    rewrite ?andb_true_iff, ?andb_false_r, ?Z.eqb_eq;
    split; intros; try discriminate; intuition congruence.
Qed.

Lemma not_owned_untargeted uid id d e :
  ~ owns uid id d -> e ∈ expenses d ->
  targeted (Some id) (Some uid) e = false.
Proof.
  intros N I. destruct (targeted (Some id) (Some uid) e) eqn:T; [|reflexivity].
  apply targeted_spec in T. exfalso. apply N. exists e. tauto.
Qed.

Lemma filter_none {A} (p : A -> bool) (l : list A) :
  (forall x, x ∈ l -> p x = false) -> filter (fun x => p x) l = [].
Proof.
  induction l as [|x l IH]; intros F; [reflexivity|].
  rewrite filter_cons_False.
  - apply IH. intros y I. apply F. now right.
  - rewrite (F x) by left. now intros [].
Qed.

Lemma filter_all {A} (p : A -> bool) (l : list A) :
  (forall x, x ∈ l -> p x = false) -> filter (fun x => negb (p x)) l = l.
Proof.
  induction l as [|x l IH]; intros F; [reflexivity|].
  rewrite filter_cons_True.
  - f_equal. apply IH. intros y I. apply F. now right.
  - now rewrite (F x) by left.
Qed.

Lemma map_untouched {A} (p : A -> bool) (f : A -> A) (l : list A) :
  (forall x, x ∈ l -> p x = false) ->
  map (fun x => if p x then f x else x) l = l.
Proof.
  induction l as [|x l IH]; intros F; [reflexivity|].
  simpl. rewrite (F x) by left. f_equal. apply IH.
  intros y I. apply F. now right.
Qed.

Lemma set_expenses_same d : set_expenses (expenses d) d = d.
Proof. now destruct d. Qed.

(** C1.  For the user the guard let in and an expense id that no row
    of this user carries (no row at all, or a row of somebody else),
    with the pool running the statement: the update, whatever
    well-formed fields it carries, and the delete both answer 404, each
    with its one fixed message, and the store is left exactly as it
    was.  The answer does not depend on whether a row with that id
    exists under another owner. *)
Theorem foreign_expense_not_found w req d uid id :
  userId req = JS.Num uid -> int4 uid ->
  outage w = None ->
  ~ owns uid id d ->
  (parseInt (params_id req) = Some id -> int4 id ->
   forall amount created_at,
     input numeric_in (prepareValue (Body.amount (body req))) = inr amount ->
     input timestamp_in (prepareValue (Body.created_at (body req)))
     = inr created_at ->
     updateExpense w req d
     = (Response 404
          (ErrorBody "Expense not found or you do not have permission to edit it."),
        d))
  /\ (int4_in (params_id req) = Some id ->
      deleteExpense w req d
      = (Response 404 (ErrorBody "Expense not found or not authorized"), d)).
Proof.
  intros U R O N.
  pose proof (fun e => not_owned_untargeted uid id d e N) as F.
  split.
  - intros PI RI amount created_at A C.
    unfold updateExpense, answer.
    rewrite pool_query_run by (assumption || reflexivity).
    rewrite PI, U. cbn [map JS.of_parseInt].
    cbn [run update_expense]. unfold param.
    cbn [lookup list_lookup mjoin option_join Nat.sub].
    rewrite A, C, (input_user_id id RI), (input_user_id uid R).
    rewrite (filter_none _ _ F), (map_untouched _ _ _ F), set_expenses_same.
    now destruct created_at.
  - intros I.
    unfold deleteExpense, answer.
    rewrite pool_query_run by (assumption || reflexivity).
    rewrite U. cbn [map].
    cbn [run delete_expense]. unfold param.
    cbn [lookup list_lookup mjoin option_join Nat.sub].
    rewrite (input_user_id uid R).
    cbn [prepareValue input]. rewrite I.
    rewrite (filter_none _ _ F), (filter_all _ _ F), set_expenses_same.
    reflexivity.
Qed.

End Ownership.

(** ** Accounts *)

Section Accounts.
Context `{Platform}.

Lemma users_conflict_spec u e d :
  users_conflict u e (users d) = true <-> taken u e d.
Proof.
  unfold users_conflict. rewrite existsb_exists. unfold taken.
  split; intros (x & I & T); exists x.
  - rewrite orb_true_iff, !String.eqb_eq in T. rewrite list_elem_of_In. tauto.
  - rewrite orb_true_iff, !String.eqb_eq, <- list_elem_of_In. tauto.
Qed.

Lemma insert_user_error_keeps_users w values d err d' :
  pool_query w insert_user values d = (inl err, d') -> users d' = users d.
Proof.
  unfold pool_query.
  destruct (outage w); [now intros [= _ <-]|].
  destruct (parse_bind _ _); [now intros [= _ <-]|].
  cbn [run insert_user].
  set (ps := map prepareValue values).
  destruct (param ps 1), (param ps 2), (param ps 3);
    try (now intros [= _ <-]).
  destruct (users_conflict _ _ _); [now intros [= _ <-] | discriminate].
Qed.

Lemma not_unique_violation err :
  code err <> JS.Str "23505" -> JS.strict_eq_string (code err) "23505" = false.
Proof.
  destruct err as [c|m]; simpl; [|reflexivity].
  intros N. destruct (String.eqb_spec c "23505"); congruence.
Qed.

(** C5.  For a registration whose password hashes: when it carries a
    user name and an e-mail address of which one is already on file
    and the pool runs the statement, the answer is 400 with "Username
    or email already exists" and the user rows are those of before;
    and whenever the statement fails with anything but the unique
    violation, the answer is 500 with "Server error during
    registration", again with the user rows unchanged. *)
Theorem register_conflict w req d h :
  bcrypt_hash (Body.password (body req)) (salt w) = Some h ->
  (forall u e,
      prepareValue (Body.username (body req)) = Some u ->
      prepareValue (Body.email (body req)) = Some e ->
      outage w = None -> taken u e d ->
      fst (register w req d)
      = Response 400 (ErrorBody "Username or email already exists")
      /\ users (snd (register w req d)) = users d)
  /\ (forall err d',
        pool_query w insert_user
          [Body.username (body req); Body.email (body req); JS.Str h] d
        = (inl err, d') ->
        code err <> JS.Str "23505" ->
        fst (register w req d)
        = Response 500 (ErrorBody "Server error during registration")
        /\ users (snd (register w req d)) = users d).
Proof.
  intros B. split.
  - intros u e U E O T.
    unfold register. rewrite B.
    rewrite pool_query_run by (assumption || reflexivity).
    cbn [map run insert_user]. unfold param.
    cbn [lookup list_lookup mjoin option_join Nat.sub prepareValue].
    rewrite U, E. apply users_conflict_spec in T. rewrite T.
    split; reflexivity.
  - intros err d' Q N.
    unfold register. rewrite B, Q. cbn [try_catch fst snd].
    rewrite (not_unique_violation err N).
    split; [reflexivity|]. eapply insert_user_error_keeps_users, Q.
Qed.

(** Hashing comes before the insert: a registration whose password
    does not hash (it is not a string) is answered 500 and the store is
    not consulted. *)
Lemma register_without_password w req d :
  bcrypt_hash (Body.password (body req)) (salt w) = None ->
  register w req d
  = (Response 500 (ErrorBody "Server error during registration"), d).
Proof. intros B. unfold register. now rewrite B. Qed.

Lemma eq_text_username x p :
  Sql.eq_text (Some (User.username x)) p = true <-> p = Some (User.username x).
Proof.
  destruct p as [s|]; simpl; [|split; discriminate].
  rewrite String.eqb_eq. split; congruence.
Qed.

Lemma login_rejected w req d :
  outage w = None ->
  unknown_user req d \/ wrong_password req d ->
  login w req d = (Response 400 (ErrorBody "Invalid username or password"), d).
Proof.
  intros O C. unfold login.
  rewrite pool_query_run by (assumption || reflexivity).
  cbn [map run select_user]. unfold param.
  cbn [lookup list_lookup mjoin option_join Nat.sub].
  set (p := prepareValue (Body.username (body req))).
  set (rows := filter _ (users d)).
  destruct C as [U | [(x & I & E) W]].
  - replace rows with (@nil User.t); [reflexivity|].
    symmetry. apply (filter_none (fun u => Sql.eq_text (Some (User.username u)) p)).
    intros y J. specialize (U y J).
    destruct (Sql.eq_text _ p) eqn:T; [|reflexivity].
    apply eq_text_username in T. contradiction.
  - destruct rows as [|y rows'] eqn:R.
    + exfalso. eapply (filter_nil_not_elem_of _ (users d) x); eauto.
      apply Is_true_true, eq_text_username, E.
    + assert (J : y ∈ rows) by (rewrite R; left).
      apply list_elem_of_filter in J as [T J].
      apply Is_true_true, eq_text_username in T.
      cbn. now rewrite (W y J T).
Qed.

(** X7.  Outside the two causes above: when the comparison itself throws
    (the password sent is not a string), the login of a user on file is
    answered 500. *)
Lemma login_compare_throws w req d :
  outage w = None ->
  (exists x, x ∈ users d
             /\ prepareValue (Body.username (body req)) = Some (User.username x)) ->
  (forall x, x ∈ users d ->
     bcrypt_compare (Body.password (body req)) (User.password_hash x) = None) ->
  login w req d = (Response 500 (ErrorBody "Server error during login"), d).
Proof.
  intros O (x & I & E) T. unfold login.
  rewrite pool_query_run by (assumption || reflexivity).
  cbn [map run select_user]. unfold param.
  cbn [lookup list_lookup mjoin option_join Nat.sub].
  set (p := prepareValue (Body.username (body req))).
  destruct (filter _ (users d)) as [|y rows'] eqn:R.
  - exfalso. eapply (filter_nil_not_elem_of _ (users d) x); eauto.
    apply Is_true_true, eq_text_username, E.
  - assert (J : y ∈ y :: rows') by left.
    rewrite <- R in J. apply list_elem_of_filter in J as [_ J].
    cbn. now rewrite (T y J).
Qed.

(** Where the comparison returns false: a login whose user name is on
    no row and a login whose password the comparison refuses get the
    same answer, 400 with "Invalid username or password", and neither
    touches the store. *)
Theorem login_failures_indistinguishable w1 req1 d1 w2 req2 d2 :
  outage w1 = None -> outage w2 = None ->
  unknown_user req1 d1 -> wrong_password req2 d2 ->
  login w1 req1 d1
  = (Response 400 (ErrorBody "Invalid username or password"), d1)
  /\ login w2 req2 d2
     = (Response 400 (ErrorBody "Invalid username or password"), d2)
  /\ fst (login w1 req1 d1) = fst (login w2 req2 d2).
Proof.
  intros O1 O2 U W.
  rewrite (login_rejected w1 req1 d1 O1 (or_introl U)).
  rewrite (login_rejected w2 req2 d2 O2 (or_intror W)).
  auto.
Qed.

(** C6.  The answer to a failed login does tell whether the user name
    is on file, when the password sent is one the comparison throws on
    (it is absent, or not a string): on one store, with the pool
    running the statement, the login under a name on no row is
    answered 400 with "Invalid username or password", and the login
    under a name on file is answered 500 with "Server error during
    login"; the two responses differ, and neither touches the store. *)
Theorem login_tells_names_apart w d known unknown :
  outage w = None ->
  unknown_user unknown d ->
  (exists x, x ∈ users d
             /\ prepareValue (Body.username (body known))
                = Some (User.username x)) ->
  (forall x, x ∈ users d ->
     bcrypt_compare (Body.password (body known)) (User.password_hash x)
     = None) ->
  login w unknown d
  = (Response 400 (ErrorBody "Invalid username or password"), d)
  /\ login w known d
     = (Response 500 (ErrorBody "Server error during login"), d)
  /\ fst (login w known d) <> fst (login w unknown d).
Proof.
  intros O U (x & I & E) T.
  assert (L1 : login w unknown d
               = (Response 400 (ErrorBody "Invalid username or password"), d))
    by (apply login_rejected; auto).
  assert (L2 : login w known d
               = (Response 500 (ErrorBody "Server error during login"), d)).
  { unfold login.
    rewrite pool_query_run by (assumption || reflexivity).
    cbn [map run select_user]. unfold param.
    cbn [lookup list_lookup mjoin option_join Nat.sub].
    destruct (filter _ (users d)) as [|y rows'] eqn:R.
    - exfalso. eapply (filter_nil_not_elem_of _ (users d) x); eauto.
      apply Is_true_true, eq_text_username, E.
    - assert (J : y ∈ y :: rows') by left.
      rewrite <- R in J. apply list_elem_of_filter in J as [_ J].
      cbn. now rewrite (T y J). }
  rewrite L1, L2. repeat split. discriminate.
Qed.

End Accounts.

(** ** Expenses: create *)

Section Create.
Context `{Platform}.

(** C3.  A create request that carries no [created_at] never stores
    the current time.  The handler names [created_at] in the column
    list and sends the missing field as NULL, so the default of the
    column is not used: either the request is answered 500 and no row
    is added, or it is answered 201 with a new row whose [created_at]
    is NULL.  The clock of the request plays no part. *)
Theorem createExpense_without_created_at w req d :
  prepareValue (Body.created_at (body req)) = None ->
  (fst (createExpense w req d) = Response 500 (ErrorBody "Failed to add expense")
   /\ expenses (snd (createExpense w req d)) = expenses d)
  \/ (exists e,
        createExpense w req d
        = (Response 201 (RowBody (Some (ExpenseRow e))),
           set_expenses (expenses d ++ [e])
             (set_expenses_id_seq (expenses_id_seq d + 1) d))
        /\ Expense.id e = expenses_id_seq d + 1
        /\ Expense.created_at e = None).
Proof.
  intros C. unfold createExpense, answer, pool_query.
  destruct (outage w); [left; split; reflexivity|].
  destruct (parse_bind _ _); [left; split; reflexivity|].
  cbn [map run insert_expense]. unfold param.
  cbn [lookup list_lookup mjoin option_join Nat.sub].
  rewrite C. cbn [input].
  destruct (input numeric_in _); [left; split; reflexivity|].
  destruct (input int4_in _); [left; split; reflexivity|].
  destruct created_at_not_null; [left; split; reflexivity|].
  right. eexists. split; [reflexivity|]. split; reflexivity.
Qed.

(** With a nullable column, a well-formed request of the user the
    guard let in is answered 201 and the row is stored without a
    time. *)
Lemma createExpense_stores_null w req d uid amount :
  created_at_not_null = false ->
  userId req = JS.Num uid -> int4 uid -> outage w = None ->
  input numeric_in (prepareValue (Body.amount (body req))) = inr amount ->
  prepareValue (Body.created_at (body req)) = None ->
  let e := Expense.Build (expenses_id_seq d + 1) amount
             (prepareValue (Body.description (body req)))
             (prepareValue (Body.category (body req))) None (Some uid) in
  createExpense w req d
  = (Response 201 (RowBody (Some (ExpenseRow e))),
     set_expenses (expenses d ++ [e])
       (set_expenses_id_seq (expenses_id_seq d + 1) d)).
Proof.
  intros NN U R O A C e. unfold createExpense, answer.
  rewrite pool_query_run by (assumption || reflexivity).
  cbn [map run insert_expense]. unfold param.
  cbn [lookup list_lookup mjoin option_join Nat.sub].
  rewrite A, C, U, (input_user_id uid R), NN. reflexivity.
Qed.

(** X21.  The create route of the first server file leaves the column
    out of the INSERT and so does store the time of the request: a
    create with a readable amount is answered 201 with the row, whose
    time is the moment of the request and which has no owner. *)
Lemma legacy_createExpense_defaults w req d amount :
  outage w = None ->
  input numeric_in (prepareValue (Body.amount (body req))) = inr amount ->
  let e := Expense.Build (expenses_id_seq d + 1) amount
             (prepareValue (Body.description (body req)))
             (prepareValue (Body.category (body req))) (Some (now w)) None in
  Legacy.createExpense w req d
  = (Response 201 (RowBody (Some (ExpenseRow e))),
     Db (users d) (users_id_seq d) (expenses d ++ [e])
        (expenses_id_seq d + 1) (categories d)).
Proof.
  intros O A e. unfold Legacy.createExpense, answer.
  rewrite pool_query_run by (assumption || reflexivity).
  cbn [map run Legacy.insert_expense]. unfold param.
  cbn [lookup list_lookup mjoin option_join Nat.sub].
  rewrite A. reflexivity.
Qed.

End Create.

(** ** Expenses: list *)

Section Listing.
Context `{Platform}.

(** C4.  Unless both [month] and [year] are present and non-empty,
    [GET /expenses] is answered 500 with "Failed to retrieve expenses"
    and the store is left as it was: the text then mentions [$3] only,
    three values are sent with it, and the statement fails before it
    runs because [$1] and [$2] have no type. *)
Theorem listExpenses_unfiltered_fails w req d :
  both (Query.month (query req)) (Query.year (query req)) = false ->
  listExpenses w req d
  = (Response 500 (ErrorBody "Failed to retrieve expenses"), d).
Proof.
  intros B. unfold listExpenses, answer. rewrite B.
  edestruct pool_query_untyped as [e ->]; reflexivity.
Qed.

(** X13.  The category summary builds its statement the same way:
    unless both [month] and [year] are present and non-empty it is
    answered 500 with its fixed message and the store is left as it
    was. *)
Lemma categorySummary_unfiltered_fails w req d :
  both (Query.month (query req)) (Query.year (query req)) = false ->
  categorySummary w req d
  = (Response 500 (ErrorBody "Failed to retrieve report data"), d).
Proof.
  intros B. unfold categorySummary, answer. rewrite B.
  edestruct pool_query_untyped as [e ->]; reflexivity.
Qed.

End Listing.

(** ** ORDER BY and GROUP BY *)

Section Ordering.
Context {A : Type} (leb : A -> A -> bool).
Hypothesis leb_total : forall a b, leb a b = true \/ leb b a = true.
Hypothesis leb_trans :
  forall a b c, leb a b = true -> leb b c = true -> leb a c = true.




End Ordering.

Section OrderBy.
Context {R K : Type} (key : R -> option K) (dir : option K -> option K -> bool).
Hypothesis dir_total : forall x y, dir x y = true \/ dir y x = true.
Hypothesis dir_trans :
  forall x y z, dir x y = true -> dir y z = true -> dir x z = true.

End OrderBy.



Section GroupSum.
Context {R K : Type} `{EqDecision K}
        (key : R -> option K) (amount : R -> option Q).




End GroupSum.




(** ** Reports over a date range *)

Section Reports.
Context `{Platform}.

Lemma owned_by_spec uid e :
  owned_by (Some uid) e = true <-> Expense.user_id e = Some uid.
Proof.
  unfold owned_by, Sql.eq_int. destruct (Expense.user_id e); simpl.
  - rewrite Z.eqb_eq. split; congruence.
  - split; discriminate.
Qed.

Lemma created_date_between_spec lo hi e :
  created_date_between (Some lo) (Some hi) e = true <->
  exists t, Expense.created_at e = Some t
            /\ date_leb lo (on t) = true /\ date_leb (on t) hi = true.
Proof.
  unfold created_date_between, Sql.between_date, date_between, cast_date.
  destruct (Expense.created_at e) as [t|]; simpl.
  - rewrite andb_true_iff. split.
    + intros [? ?]. exists t. auto.
    + intros (t' & [= <-] & ? & ?). auto.
  - split; [discriminate | intros (t & ? & _); discriminate].
Qed.

Lemma created_between_spec lo hi e :
  created_between (Some lo) (Some hi) e = true <->
  exists t, Expense.created_at e = Some t
            /\ timestamp_leb lo t = true /\ timestamp_leb t hi = true.
Proof.
  unfold created_between, Sql.between_timestamp, timestamp_between.
  destruct (Expense.created_at e) as [t|]; simpl.
  - rewrite andb_true_iff. split.
    + intros [? ?]. exists t. auto.
    + intros (t' & [= <-] & ? & ?). auto.
  - split; [discriminate | intros (t & ? & _); discriminate].
Qed.

Lemma elem_of_in_date_range uid lo hi d e :
  e ∈ in_date_range uid lo hi d <->
  e ∈ expenses d /\ Expense.user_id e = Some uid
  /\ exists t, Expense.created_at e = Some t
               /\ date_leb lo (on t) = true /\ date_leb (on t) hi = true.
Proof.
  unfold in_date_range. rewrite list_elem_of_filter.
  rewrite <- owned_by_spec, <- created_date_between_spec.
  rewrite Is_true_true, andb_true_iff. tauto.
Qed.

Lemma elem_of_in_time_range uid lo hi d e :
  e ∈ in_time_range uid lo hi d <->
  e ∈ expenses d /\ Expense.user_id e = Some uid
  /\ exists t, Expense.created_at e = Some t
               /\ timestamp_leb lo t = true /\ timestamp_leb t hi = true.
Proof.
  unfold in_time_range. rewrite list_elem_of_filter.
  rewrite <- owned_by_spec, <- created_between_spec.
  rewrite Is_true_true, andb_true_iff. tauto.
Qed.




Lemma rangeDailySummary_runs w req d uid s1 s2 lo hi :
  userId req = JS.Num uid -> int4 uid -> outage w = None ->
  prepareValue (Query.startDate (query req)) = Some s1 -> date_in s1 = Some lo ->
  prepareValue (Query.endDate (query req)) = Some s2 -> date_in s2 = Some hi ->
  rangeDailySummary w req d
  = (Response 200 (RowsBody (by_day (in_date_range uid lo hi d))), d).
Proof.
  intros U R O S1 D1 S2 D2. unfold rangeDailySummary, answer.
  rewrite pool_query_run by (assumption || reflexivity).
  cbn [map run select_range_daily_summary]. unfold param.
  cbn [lookup list_lookup mjoin option_join Nat.sub].
  rewrite S1, S2, U, (input_user_id uid R). cbn [input].
  rewrite D1, D2. reflexivity.
Qed.



Lemma weekly_runs w req d uid s1 s2 lo hi :
  userId req = JS.Num uid -> int4 uid -> outage w = None ->
  prepareValue (Query.startDate (query req)) = Some s1 ->
  timestamp_in s1 = Some lo ->
  prepareValue (Query.endDate (query req)) = Some s2 ->
  timestamp_in s2 = Some hi ->
  weeklySummary w req d
  = (Response 200 (RowsBody (by_day (in_time_range uid lo hi d))), d)
  /\ weeklyCategorySummary w req d
     = (Response 200 (RowsBody (by_category (in_time_range uid lo hi d))), d).
Proof.
  intros U R O S1 D1 S2 D2. unfold weeklySummary, weeklyCategorySummary, answer.
  rewrite !pool_query_run by (assumption || reflexivity).
  cbn [map run select_weekly_summary select_weekly_category_summary].
  unfold param. cbn [lookup list_lookup mjoin option_join Nat.sub].
  rewrite S1, S2, U, (input_user_id uid R). cbn [input].
  rewrite D1, D2. split; reflexivity.
Qed.

Lemma rangeCategorySummary_runs w req d uid s1 s2 lo hi :
  userId req = JS.Num uid -> int4 uid -> outage w = None ->
  prepareValue (Query.startDate (query req)) = Some s1 -> date_in s1 = Some lo ->
  prepareValue (Query.endDate (query req)) = Some s2 -> date_in s2 = Some hi ->
  rangeCategorySummary w req d
  = (Response 200 (RowsBody (by_category (in_date_range uid lo hi d))), d).
Proof.
  intros U R O S1 D1 S2 D2. unfold rangeCategorySummary, answer.
  rewrite pool_query_run by (assumption || reflexivity).
  cbn [map run select_range_category_summary]. unfold param.
  cbn [lookup list_lookup mjoin option_join Nat.sub].
  rewrite S1, S2, U, (input_user_id uid R). cbn [input].
  rewrite D1, D2. reflexivity.
Qed.

(** A time after midnight on a day lies beyond the midnight of that day. *)
Lemma after_midnight t :
  0 < time t -> timestamp_leb t (midnight (on t)) = false.
Proof.
  intros P. destruct (timestamp_leb t (midnight (on t))) eqn:E; [|reflexivity].
  apply timestamp_leb_spec in E as [[_ N] | [_ L]].
  - now contradiction N.
  - simpl in L. lia.
Qed.

(** C10.  For the user the guard let in, with the pool running the
    statements, a start of the range and an end date [hi] sent as a
    bare calendar date (read as the midnight of [hi] where a timestamp
    is expected): the weekly summary and the weekly category summary
    aggregate exactly the expenses of this user whose full timestamp
    lies between the start and the midnight of [hi], so an expense of
    this user on [hi] at a time after midnight is not among them;
    the two range reports aggregate the expenses whose date lies
    between the two dates, and that same expense is among those. *)
Theorem weekly_reports_cut_the_end_date w req d uid s1 s2 tlo lo hi e t :
  userId req = JS.Num uid -> int4 uid -> outage w = None ->
  prepareValue (Query.startDate (query req)) = Some s1 ->
  timestamp_in s1 = Some tlo -> date_in s1 = Some lo ->
  prepareValue (Query.endDate (query req)) = Some s2 ->
  timestamp_in s2 = Some (midnight hi) -> date_in s2 = Some hi ->
  e ∈ expenses d -> Expense.user_id e = Some uid ->
  Expense.created_at e = Some t -> on t = hi -> 0 < time t ->
  date_leb lo hi = true ->
  exists weekly ranged,
    weeklySummary w req d = (Response 200 (RowsBody (by_day weekly)), d)
    /\ weeklyCategorySummary w req d
       = (Response 200 (RowsBody (by_category weekly)), d)
    /\ rangeDailySummary w req d = (Response 200 (RowsBody (by_day ranged)), d)
    /\ rangeCategorySummary w req d
       = (Response 200 (RowsBody (by_category ranged)), d)
    /\ (forall x, x ∈ weekly <->
          x ∈ expenses d /\ Expense.user_id x = Some uid
          /\ exists tx, Expense.created_at x = Some tx
                        /\ timestamp_leb tlo tx = true
                        /\ timestamp_leb tx (midnight hi) = true)
    /\ (forall x, x ∈ ranged <->
          x ∈ expenses d /\ Expense.user_id x = Some uid
          /\ exists tx, Expense.created_at x = Some tx
                        /\ date_leb lo (on tx) = true
                        /\ date_leb (on tx) hi = true)
    /\ (e ∉ weekly) /\ (e ∈ ranged).
Proof.
  intros U R O S1 T1 D1 S2 T2 D2 I Ow C Day Late Range.
  exists (in_time_range uid tlo (midnight hi) d), (in_date_range uid lo hi d).
  destruct (weekly_runs w req d uid s1 s2 tlo (midnight hi)) as [W1 W2];
    try assumption.
  split; [exact W1|]. split; [exact W2|].
  split; [now apply rangeDailySummary_runs with s1 s2|].
  split; [now apply rangeCategorySummary_runs with s1 s2|].
  split; [intros x; apply elem_of_in_time_range|].
  split; [intros x; apply elem_of_in_date_range|].
  split.
  - intros J. apply elem_of_in_time_range in J as (_ & _ & t' & C' & _ & L).
    rewrite C in C'. injection C' as <-.
    rewrite <- Day, after_midnight in L by assumption. discriminate.
  - apply elem_of_in_date_range. repeat split; try assumption.
    exists t. rewrite Day. repeat split; try assumption.
    rewrite date_leb_spec. lia.
Qed.

End Reports.

(** ** Expenses: the month filter *)

Section Monthly.
Context `{Platform}.

(** A timestamp has month [m] and year [y] exactly when it lies from
    the first instant of that month on and before the first instant of
    the following one: both ends of the month are in. *)
Lemma calendar_month_interval t y m :
  valid_timestamp t -> 1 <= m <= 12 ->
  (extract_month t = m /\ extract_year t = y) <->
  (timestamp_leb (first_instant y m) t = true
   /\ timestamp_leb
        (first_instant (fst (following_month y m)) (snd (following_month y m))) t
      = false).
Proof.
  destruct t as [[ty tm td] tt].
  unfold valid_timestamp, extract_month, extract_year, following_month,
    first_instant, timestamp_leb, timestamp_compare, date_compare, leb_of,
    usec_per_day.
  cbn [on time dyear dmonth dday]. intros (Vm & Vd & Vt) Rm.
  destruct (Z.eqb_spec m 12); cbn [fst snd on time dyear dmonth dday];
    repeat match goal with
           | |- context [Z.compare ?a ?b] => destruct (Z.compare_spec a b)
           end;
    split; intros; intuition (try discriminate; try lia).
Qed.




End Monthly.

(** ** The whole table of routes *)

Ltac inputs :=
  repeat match goal with
         | |- context [input ?f ?p] => destruct (input f p)
         end.

(** *** Statuses and messages; what a route writes *)

Section Routes.
Context `{Platform}.

Lemma answer_store w st values ok failure d :
  snd (answer w st values ok failure d) = snd (pool_query w st values d).
Proof. unfold answer. now destruct (pool_query w st values d) as [[e|rows] d']. Qed.

Lemma answer_response w st values ok failure d :
  fst (answer w st values ok failure d) = Response 500 (ErrorBody failure)
  \/ exists rows, fst (answer w st values ok failure d) = ok rows.
Proof.
  unfold answer. destruct (pool_query w st values d) as [[e|rows] d']; cbn; eauto.
Qed.

Lemma authMiddleware_cases w req :
  (exists m, authMiddleware w req = Reply (Response 401 (ErrorBody m)))
  \/ (exists uid, authMiddleware w req = Next (set_userId (JS.Num uid) req)).
Proof.
  unfold authMiddleware.
  destruct (JS.truthy (authorization req)); cbn; [|eauto].
  destruct (authorization req); eauto.
  destruct (jwt_verify s (now w)); eauto.
Qed.

Ltac listed := cbn; repeat constructor.

Lemma fits_failure r : fits r (Response 500 (ErrorBody (failure_message r))).
Proof.
  split; [destruct r; listed|].
  split; [eauto | reflexivity].
Qed.

Lemma fits_success r st body :
  st ∈ statuses r -> st < 400 -> fits r (Response st body).
Proof.
  intros I L. split; [exact I|]. cbn. split; intros; lia.
Qed.

Lemma fits_refusal r st m :
  st ∈ statuses r -> st <> 500 -> fits r (Response st (ErrorBody m)).
Proof.
  intros I N. split; [exact I|]. cbn. split; [eauto | contradiction].
Qed.

Ltac settle :=
  first
    [ apply fits_failure
    | apply fits_success; [listed | lia]
    | apply fits_refusal; [listed | discriminate] ].

Lemma answer_fits r w st values ok d :
  (forall rows, fits r (ok rows)) ->
  fits r (fst (answer w st values ok (failure_message r) d)).
Proof.
  intros F. destruct (answer_response w st values ok (failure_message r) d)
    as [-> | [rows ->]]; [apply fits_failure | apply F].
Qed.

Lemma handler_fits r w req d : fits r (fst (snd (app r) w req d)).
Proof.
  destruct r; cbn [app snd].
  - unfold register.
    destruct (bcrypt_hash _ _); cbn; [|settle].
    destruct (pool_query _ _ _ _) as [[[c0|m0]|rows0] d0]; cbn.
    + destruct (String.eqb c0 "23505"); settle.
    + settle.
    + destruct (head rows0) as [[]|]; cbn; settle.
  - unfold login.
    destruct (pool_query _ _ _ _) as [[[c0|m0]|rows0] d0]; cbn; try settle.
    destruct (Nat.eqb (rowCount rows0) 0); cbn; [settle|].
    destruct (head rows0) as [[]|]; cbn; try settle.
    destruct (bcrypt_compare _ _) as [[]|]; cbn; settle.
  - apply (answer_fits PostExpenses). intros; settle.
  - apply (answer_fits GetExpenses). intros; settle.
  - apply (answer_fits PutExpense). intros rows.
    destruct (Nat.eqb (rowCount rows) 0); settle.
  - apply (answer_fits DeleteExpense). intros rows.
    destruct (Nat.eqb (rowCount rows) 0); settle.
  - apply (answer_fits GetExpensesRange). intros; settle.
  - apply (answer_fits GetCategorySummary). intros; settle.
  - apply (answer_fits GetMonthlySummary). intros; settle.
  - apply (answer_fits GetWeeklyCategorySummary). intros; settle.
  - apply (answer_fits GetYearlyCategorySummary). intros; settle.
  - apply (answer_fits GetYearlySummary). intros; settle.
  - apply (answer_fits GetWeeklySummary). intros; settle.
  - apply (answer_fits GetRangeCategorySummary). intros; settle.
  - apply (answer_fits GetRangeDailySummary). intros; settle.
  - apply (answer_fits GetCategories). intros; settle.
  - unfold createCategory.
    destruct (JS.truthy _); cbn [negb]; [|settle].
    destruct (pool_query _ _ _ _) as [[[c0|m0]|rows0] d0]; cbn; try settle.
    destruct (String.eqb c0 "23505"); settle.
  - unfold deleteCategory.
    destruct (JS.truthy _); cbn [negb]; [|settle].
    apply (answer_fits DeleteCategories). intros rows.
    destruct (Nat.eqb (rowCount rows) 0); settle.
Qed.

(** X1.  Once [express.json()] has handed a request with its parsed
    body to a route, whatever the request holds and whatever the
    store, the route answers with one of the statuses of its row in
    [statuses] (401 only behind the guard); an answer of 400 or above
    carries an [error] message and nothing else; and the message of a
    500 is the one fixed message of the route, so nothing of the error
    caught reaches the client.  (A body that does not parse never
    reaches a route; the parser answers it.) *)
Theorem serve_answers r w req d :
  status (fst (serve r w req d)) ∈ statuses r
  /\ (400 <= status (fst (serve r w req d)) ->
      exists m, payload (fst (serve r w req d)) = ErrorBody m)
  /\ (status (fst (serve r w req d)) = 500 ->
      payload (fst (serve r w req d)) = ErrorBody (failure_message r)).
Proof.
  change (fits r (fst (serve r w req d))).
  assert (G : guarded r \/ r = PostRegister \/ r = PostLogin).
  { unfold guarded. destruct r; auto; left; split; discriminate. }
  destruct G as [G | [-> | ->]]; try apply handler_fits.
  rewrite (serve_guarded r w req d G).
  destruct (authMiddleware_cases w req) as [[m ->] | [uid ->]].
  - cbn [fst]. apply fits_refusal; [|discriminate].
    destruct G. destruct r; try congruence; listed.
  - apply handler_fits.
Qed.

Lemma try_catch_store attempt catch : snd (try_catch attempt catch) = snd attempt.
Proof. now destruct attempt as [[e|res] d]. Qed.

Lemma pool_query_store w st values d :
  snd (pool_query w st values d) = d
  \/ snd (pool_query w st values d) = snd (run st (now w) (map prepareValue values) d).
Proof.
  unfold pool_query. destruct (outage w); [now left|].
  destruct (parse_bind _ _); [now left | now right].
Qed.

Lemma selects_read :
  Forall reads
    [select_user; select_monthly_summary; select_weekly_category_summary;
     select_yearly_category_summary; select_yearly_summary;
     select_weekly_summary; select_expenses_range;
     select_range_category_summary; select_range_daily_summary;
     select_categories]
  /\ (forall q f, reads (select_expenses q f))
  /\ (forall q f, reads (select_category_summary q f)).
Proof.
  split; [repeat constructor; intros now ps d; cbn; inputs; reflexivity|].
  split; intros q f now ps d; cbn; inputs; destruct f; inputs; reflexivity.
Qed.

Lemma read_query w st values d : reads st -> snd (pool_query w st values d) = d.
Proof.
  intros R. destruct (pool_query_store w st values d) as [E|E]; rewrite E; auto.
Qed.

Lemma keeps_refl t d : keeps t d d.
Proof. repeat split. Qed.

Lemma write_query t w st values d :
  (forall now ps d, keeps t d (snd (run st now ps d))) ->
  keeps t d (snd (pool_query w st values d)).
Proof.
  intros R. destruct (pool_query_store w st values d) as [E|E]; rewrite E;
    auto using keeps_refl.
Qed.

Lemma writes_keep :
  (forall now ps d, keeps (Some Users) d (snd (run insert_user now ps d)))
  /\ (forall now ps d, keeps (Some Expenses) d (snd (run insert_expense now ps d)))
  /\ (forall now ps d, keeps (Some Expenses) d (snd (run update_expense now ps d)))
  /\ (forall now ps d, keeps (Some Expenses) d (snd (run delete_expense now ps d)))
  /\ (forall now ps d, keeps (Some Categories) d (snd (run insert_category now ps d)))
  /\ (forall now ps d, keeps (Some Categories) d (snd (run delete_category now ps d))).
Proof.
  repeat split; try congruence; cbn; inputs; cbn;
    repeat match goal with
           | |- context [match ?x with _ => _ end] => destruct x
           end; reflexivity.
Qed.

Lemma handler_keeps r w req d : keeps (target r) d (snd (snd (app r) w req d)).
Proof.
  destruct selects_read as (S & S1 & S2).
  destruct writes_keep as (W1 & W2 & W3 & W4 & W5 & W6).
  assert (K : forall t d', d' = d -> keeps t d d') by (intros; subst; apply keeps_refl).
  destruct r; cbn [app snd target];
    unfold register, login, createExpense, listExpenses, categorySummary,
      monthlySummary, weeklyCategorySummary, yearlyCategorySummary,
      yearlySummary, weeklySummary, updateExpense, deleteExpense,
      listExpensesRange, rangeCategorySummary, rangeDailySummary,
      listCategories, createCategory, deleteCategory;
    try (destruct (JS.truthy _); cbn [negb]; [|apply keeps_refl]);
    rewrite ?answer_store;
    try (apply write_query; assumption);
    try (apply K, read_query; first [apply S1 | apply S2 |
           repeat (apply Forall_cons in S as [? S]); assumption]).
  - rewrite try_catch_store. destruct (bcrypt_hash _ _); [|apply keeps_refl].
    destruct (pool_query _ _ _ _) as [[e|rows] d'] eqn:Q.
    + replace d' with (snd (pool_query w insert_user
        [Body.username (body req); Body.email (body req); JS.Str s] d))
        by now rewrite Q.
      now apply write_query.
    + replace d' with (snd (pool_query w insert_user
        [Body.username (body req); Body.email (body req); JS.Str s] d))
        by now rewrite Q.
      destruct (head rows) as [[]|]; now apply write_query.
  - rewrite try_catch_store. apply K.
    destruct (pool_query _ _ _ _) as [[e|rows] d'] eqn:Q.
    + replace d' with (snd (pool_query w select_user [Body.username (body req)] d))
        by now rewrite Q.
      apply read_query. now apply Forall_cons in S as [? _].
    + replace d' with (snd (pool_query w select_user [Body.username (body req)] d))
        by now rewrite Q.
      destruct (Nat.eqb _ _); [|destruct (head rows) as [[]|];
        try destruct (bcrypt_compare _ _) as [[]|]];
      (apply read_query; now apply Forall_cons in S as [? _]).
  - rewrite try_catch_store.
    destruct (pool_query _ _ _ _) as [[e|rows] d'] eqn:Q;
      (replace d' with (snd (pool_query w insert_category
         [Body.name (body req); userId req] d)) by now rewrite Q);
      now apply write_query.
Qed.
End Routes.

(** *** The constraints under each write *)

Section Constraints.
Context `{Platform}.

Lemma NoDup_map_filter {A B} (f : A -> B) (p : A -> bool) (l : list A) :
  NoDup (map f l) -> NoDup (map f (filter (fun x => p x) l)).
Proof.
  intros N. eapply sublist_NoDup; [exact N|].
  change (map f ?l) with (f <$> l). apply fmap_sublist, sublist_filter.
Qed.

Lemma NoDup_omap_filter {A B} (f : A -> option B) (p : A -> bool) (l : list A) :
  NoDup (omap f l) -> NoDup (omap f (filter (fun x => p x) l)).
Proof.
  intros N. eapply sublist_NoDup; [exact N|]. clear N.
  induction l as [|x l IH]; [constructor|].
  rewrite filter_cons. destruct (decide (p x)); cbn; destruct (f x); cbn;
    auto using sublist_skip, sublist_cons.
Qed.

Lemma NoDup_map_snoc {A B} (f : A -> B) (l : list A) (x : A) :
  NoDup (map f l) -> (forall y, y ∈ l -> f y <> f x) -> NoDup (map f (l ++ [x])).
Proof.
  intros N F. rewrite map_app. apply NoDup_app. split; [exact N|].
  split; [|cbn; apply NoDup_singleton].
  intros b I J. cbn in J. apply list_elem_of_singleton in J. subst b.
  change (map f l) with (f <$> l) in I. apply list_elem_of_fmap in I as (y & E & I).
  now apply (F y I).
Qed.

Lemma users_conflict_false u e l :
  users_conflict u e l = false ->
  forall x, x ∈ l -> User.username x <> u /\ User.email x <> e.
Proof.
  unfold users_conflict. intros E x I.
  destruct (decide (User.username x = u \/ User.email x = e)) as [D|D]; [|tauto].
  exfalso. assert (T : existsb (fun u0 => String.eqb (User.username u0) u
                      || String.eqb (User.email u0) e) l = true).
  { apply existsb_exists. exists x. split; [now apply list_elem_of_In|].
    rewrite orb_true_iff, !String.eqb_eq. exact D. }
  congruence.
Qed.

Lemma insert_user_consistent now ps d :
  consistent d -> consistent (snd (run insert_user now ps d)).
Proof.
  intros [U1 U2 U3 U4 E1 E2 C].
  assert (U1' : Forall (fun u => User.id u <= users_id_seq d + 1) (users d)).
  { eapply Forall_impl; [exact U1|]. cbn. intros. lia. }
  cbn [run insert_user].
  destruct (param ps 1) as [u|], (param ps 2) as [e|], (param ps 3) as [h|];
    try (constructor; assumption).
  destruct (users_conflict u e (users d)) eqn:X; [constructor; assumption|].
  pose proof (users_conflict_false _ _ _ X) as F.
  constructor; cbn; try assumption.
  - apply Forall_app. split; [exact U1'|]. repeat constructor. cbn. lia.
  - apply NoDup_map_snoc; [exact U2|]. intros y I. cbn.
    rewrite Forall_forall in U1. specialize (U1 y I). cbn in U1. lia.
  - apply NoDup_map_snoc; [exact U3|]. intros y I. cbn. now apply F.
  - apply NoDup_map_snoc; [exact U4|]. intros y I. cbn. now apply F.
Qed.

Lemma insert_expense_consistent now ps d :
  consistent d -> consistent (snd (run insert_expense now ps d)).
Proof.
  intros [U1 U2 U3 U4 E1 E2 C].
  assert (E1' : Forall (fun e => Expense.id e <= expenses_id_seq d + 1) (expenses d)).
  { eapply Forall_impl; [exact E1|]. cbn. intros. lia. }
  assert (S : forall e, Expense.id e = expenses_id_seq d + 1 ->
     consistent (set_expenses (expenses d ++ [e])
                   (set_expenses_id_seq (expenses_id_seq d + 1) d))).
  { intros e Id. constructor; cbn; try assumption.
    - apply Forall_app. split; [exact E1'|]. repeat constructor. lia.
    - apply NoDup_map_snoc; [exact E2|]. intros y I.
      rewrite Forall_forall in E1. specialize (E1 y I). cbn in E1. lia. }
  cbn [run insert_expense]. inputs; cbn; try (constructor; assumption).
  destruct o0; [now apply S|].
  destruct created_at_not_null; [constructor; assumption | now apply S].
Qed.

Lemma update_expense_consistent now ps d :
  consistent d -> consistent (snd (run update_expense now ps d)).
Proof.
  intros [U1 U2 U3 U4 E1 E2 C].
  cbn [run update_expense]. inputs; cbn; try (constructor; assumption).
  set (f := fun e : Expense.t => if targeted o1 o2 e then _ else e).
  assert (Id : forall e, Expense.id (f e) = Expense.id e).
  { intros e. unfold f. now destruct (targeted o1 o2 e). }
  assert (S : consistent (set_expenses (map f (expenses d)) d)).
  { constructor; cbn; try assumption.
    - apply Forall_forall. intros e I.
      change (map f ?l) with (f <$> l) in I.
      apply list_elem_of_fmap in I as (y & -> & I). rewrite Id.
      rewrite Forall_forall in E1. now apply E1.
    - rewrite map_map. erewrite map_ext; [exact E2|]. intros; apply Id. }
  destruct o0; [exact S|].
  destruct (filter _ _); [exact S|].
  destruct created_at_not_null; [constructor; assumption | exact S].
Qed.

Lemma delete_expense_consistent now ps d :
  consistent d -> consistent (snd (run delete_expense now ps d)).
Proof.
  intros [U1 U2 U3 U4 E1 E2 C].
  cbn [run delete_expense]. inputs; cbn; try (constructor; assumption).
  constructor; cbn; try assumption.
  - apply Forall_forall. intros e I. apply list_elem_of_filter in I as [_ I].
    rewrite Forall_forall in E1. now apply E1.
  - now apply (NoDup_map_filter Expense.id (fun e => negb (targeted o o0 e))).
Qed.

Lemma categories_conflict_false n u l :
  categories_conflict (Some n) (Some u) l = false ->
  forall c, c ∈ l -> category_key c <> Some (n, u).
Proof.
  unfold categories_conflict. intros E c I K.
  assert (T : existsb (named (Some n) (Some u)) l = true); [|congruence].
  apply existsb_exists. exists c. split; [now apply list_elem_of_In|].
  unfold category_key in K. unfold named, Sql.eq_text, Sql.eq_int.
  destruct (Category.name c), (Category.user_id c); try discriminate.
  injection K as -> ->. now rewrite String.eqb_refl, Z.eqb_refl.
Qed.

Lemma insert_category_consistent now ps d :
  consistent d -> consistent (snd (run insert_category now ps d)).
Proof.
  intros [U1 U2 U3 U4 E1 E2 C].
  cbn [run insert_category]. inputs; cbn; try (constructor; assumption).
  destruct (categories_conflict _ _ _) eqn:X; cbn; [constructor; assumption|].
  constructor; cbn; try assumption.
  rewrite omap_app. cbn. unfold category_key at 2. cbn.
  destruct (param ps 1) as [n|], o as [u|]; cbn;
    rewrite ?app_nil_r; try assumption.
  apply NoDup_app. split; [exact C|]. split; [|apply NoDup_singleton].
  intros k I J. apply list_elem_of_singleton in J. subst k.
  apply list_elem_of_omap in I as (c & I & K).
  now apply (categories_conflict_false _ _ _ X c I).
Qed.

Lemma delete_category_consistent now ps d :
  consistent d -> consistent (snd (run delete_category now ps d)).
Proof.
  intros [U1 U2 U3 U4 E1 E2 C].
  cbn [run delete_category]. inputs; cbn; try (constructor; assumption).
  constructor; cbn; try assumption.
  now apply (NoDup_omap_filter category_key (fun c => negb (named (param ps 1) o c))).
Qed.
End Constraints.

(** *** The constraints under each handler *)

Section ConstraintsKept.
Context `{Platform}.

Lemma pool_query_consistent w st values d :
  (forall now ps d, consistent d -> consistent (snd (run st now ps d))) ->
  consistent d -> consistent (snd (pool_query w st values d)).
Proof.
  intros R C. destruct (pool_query_store w st values d) as [E|E]; rewrite E; auto.
Qed.

Lemma handler_consistent r w req d :
  consistent d -> consistent (snd (snd (app r) w req d)).
Proof.
  intros C.
  destruct (target r) eqn:T.
  - destruct r; try discriminate; cbn [app snd];
      unfold register, createExpense, updateExpense, deleteExpense,
        createCategory, deleteCategory;
      try (destruct (JS.truthy _); cbn [negb]; [|exact C]);
      rewrite ?answer_store, ?try_catch_store;
      try (apply pool_query_consistent;
           auto using insert_expense_consistent, update_expense_consistent,
             delete_expense_consistent, delete_category_consistent).
    + destruct (bcrypt_hash _ _) as [h|]; [|exact C].
      pose proof (pool_query_consistent w insert_user
        [Body.username (body req); Body.email (body req); JS.Str h] d
        insert_user_consistent C) as K.
      destruct (pool_query _ _ _ _) as [[e|rows] d']; [exact K|].
      destruct (head rows) as [[]|]; exact K.
    + pose proof (pool_query_consistent w insert_category
        [Body.name (body req); userId req] d insert_category_consistent C) as K.
      destruct (pool_query _ _ _ _) as [[e|rows] d']; exact K.
  - pose proof (handler_keeps r w req d) as (K1 & K2 & K3). rewrite T in *.
    destruct K1 as [A1 A2]; [discriminate|].
    destruct K2 as [B1 B2]; [discriminate|].
    specialize (K3 ltac:(discriminate)).
    destruct C as [U1 U2 U3 U4 E1 E2 Cc].
    constructor; rewrite ?A1, ?A2, ?B1, ?B2, ?K3; assumption.
Qed.
End ConstraintsKept.

(** *** Reads see the rows of the caller *)

Section ReadIsolation.
Context `{Platform}.

Lemma filter_both {A} (a b : A -> bool) (l : list A) :
  filter (fun x => a x && b x) l
  = filter (fun x => b x) (filter (fun x => a x) l).
Proof.
  induction l as [|x l IH]; [reflexivity|].
  rewrite !filter_cons.
  destruct (a x) eqn:Ea, (b x) eqn:Eb; cbn [andb];
    repeat (case_decide; try (exfalso; auto; fail));
    rewrite ?filter_cons, ?Eb; repeat case_decide;
    try (exfalso; auto; fail); now rewrite IH.
Qed.

Lemma handler_reads_own r w req d1 d2 uid :
  reads_expenses r = true ->
  userId req = JS.Num uid -> int4 uid ->
  own_expenses uid d1 = own_expenses uid d2 ->
  fst (snd (app r) w req d1) = fst (snd (app r) w req d2).
Proof.
  intros Rd U R O. unfold own_expenses in O.
  destruct r; try discriminate; cbn [app snd];
    unfold listExpenses, categorySummary, monthlySummary,
      weeklyCategorySummary, yearlyCategorySummary, yearlySummary,
      weeklySummary, listExpensesRange, rangeCategorySummary,
      rangeDailySummary, answer, pool_query;
    (destruct (outage w); [reflexivity|]);
    try destruct (both _ _);
    (destruct (parse_bind _ _); [reflexivity|]);
    cbn [map run select_expenses select_category_summary select_monthly_summary
           select_weekly_category_summary select_yearly_category_summary
           select_yearly_summary select_weekly_summary select_expenses_range
           select_range_category_summary select_range_daily_summary];
    unfold param; cbn [lookup list_lookup mjoin option_join Nat.sub];
    rewrite U, (input_user_id uid R);
    repeat match goal with
           | |- context [input ?f ?p] => destruct (input f p)
           end;
    try reflexivity;
    rewrite ?filter_both, O; reflexivity.
Qed.
End ReadIsolation.

(** *** Writes touch the rows of the caller *)

Section WriteIsolation.
Context `{Platform}.

Lemma filter_filter_implied {A} (p q : A -> bool) (l : list A) :
  (forall x, q x = true -> p x = true) ->
  filter (fun x => negb (p x)) (filter (fun x => negb (q x)) l)
  = filter (fun x => negb (p x)) l.
Proof.
  intros I. induction l as [|x l IH]; [reflexivity|].
  rewrite !filter_cons.
  destruct (q x) eqn:Q; cbn [negb].
  - rewrite (I x Q). cbn [negb]. repeat case_decide; try (exfalso; auto; fail).
    exact IH.
  - repeat case_decide; try (exfalso; auto; fail);
      rewrite ?filter_cons; repeat case_decide; try (exfalso; auto; fail);
      now rewrite IH.
Qed.

Lemma filter_map_implied {A} (p q : A -> bool) (f : A -> A) (l : list A) :
  (forall x, q x = true -> p x = true) ->
  (forall x, p (f x) = p x) ->
  filter (fun x => negb (p x)) (map (fun x => if q x then f x else x) l)
  = filter (fun x => negb (p x)) l.
Proof.
  intros I K. induction l as [|x l IH]; [reflexivity|].
  cbn [map]. rewrite !filter_cons.
  destruct (q x) eqn:Q.
  - rewrite K, (I x Q). cbn [negb]. repeat case_decide; try (exfalso; auto; fail).
    exact IH.
  - repeat case_decide; try (exfalso; auto; fail); now rewrite IH.
Qed.

Lemma filter_snoc_out {A} (p : A -> bool) (l : list A) (x : A) :
  p x = true -> filter (fun x => negb (p x)) (l ++ [x])%list = filter (fun x => negb (p x)) l.
Proof.
  intros P. rewrite filter_app, filter_cons, filter_nil, P. cbn [negb].
  case_decide; [exfalso; auto|]. apply app_nil_r.
Qed.

Lemma targeted_owned id uid e :
  targeted id (Some uid) e = true -> owned_by (Some uid) e = true.
Proof. unfold targeted, owned_by. now intros [_ ?]%andb_true_iff. Qed.

Lemma named_owned n uid c :
  named n (Some uid) c = true -> Sql.eq_int (Category.user_id c) (Some uid) = true.
Proof. unfold named. now intros [_ ?]%andb_true_iff. Qed.

Lemma handler_leaves_foreign_rows r w req d uid :
  userId req = JS.Num uid -> int4 uid ->
  foreign_expenses uid (snd (snd (app r) w req d)) = foreign_expenses uid d
  /\ foreign_categories uid (snd (snd (app r) w req d)) = foreign_categories uid d.
Proof.
  intros U R.
  pose proof (handler_keeps r w req d) as (K1 & K2 & K3).
  unfold foreign_expenses, foreign_categories.
  destruct r; cbn [target] in *;
    try (destruct K2 as [-> _]; [discriminate|];
         rewrite K3 by discriminate; split; reflexivity).
  - (* create *)
    rewrite K3 by discriminate. split; [|reflexivity].
    cbn [app snd]. unfold createExpense. rewrite answer_store.
    destruct (pool_query_store w insert_expense
                [Body.amount (body req); Body.description (body req);
                 Body.category (body req); Body.created_at (body req);
                 userId req] d) as [E|E]; rewrite E; [reflexivity|].
    cbn [map run insert_expense]. unfold param.
    cbn [lookup list_lookup mjoin option_join Nat.sub].
    rewrite U, (input_user_id uid R).
    destruct (input numeric_in _) as [?|amount]; [reflexivity|].
    destruct (input timestamp_in _) as [?|created]; [reflexivity|].
    assert (S : forall e, Expense.user_id e = Some uid ->
       filter (fun e => negb (owned_by (Some uid) e)) (expenses d ++ [e])%list
       = filter (fun e => negb (owned_by (Some uid) e)) (expenses d)).
    { intros e Ow. apply (filter_snoc_out (owned_by (Some uid))).
      unfold owned_by. rewrite Ow. cbn. apply Z.eqb_refl. }
    destruct created; [now apply S|].
    destruct created_at_not_null; [reflexivity | now apply S].
  - (* update *)
    rewrite K3 by discriminate. split; [|reflexivity].
    cbn [app snd]. unfold updateExpense. rewrite answer_store.
    match goal with
    | |- context [pool_query w update_expense ?vs d] =>
        destruct (pool_query_store w update_expense vs d) as [E|E]; rewrite E;
          [reflexivity|]
    end.
    cbn [map run update_expense]. unfold param.
    cbn [lookup list_lookup mjoin option_join Nat.sub].
    rewrite U, (input_user_id uid R).
    destruct (input numeric_in _) as [?|amount]; [reflexivity|].
    destruct (input timestamp_in _) as [?|created]; [reflexivity|].
    destruct (input int4_in _) as [?|id]; [reflexivity|].
    match goal with
    | |- context [map (fun e => if targeted id (Some uid) e then @?f e else e)] =>
        assert (S : filter (fun e => negb (owned_by (Some uid) e))
                      (map (fun e => if targeted id (Some uid) e then f e else e)
                           (expenses d))
                    = filter (fun e => negb (owned_by (Some uid) e)) (expenses d))
          by (apply (filter_map_implied (owned_by (Some uid)));
              [apply targeted_owned | reflexivity])
    end.
    destruct created; [exact S|].
    match goal with
    | |- context [match filter ?P ?l with _ => _ end] => destruct (filter P l)
    end; [exact S|].
    destruct created_at_not_null; [reflexivity | exact S].
  - (* delete *)
    rewrite K3 by discriminate. split; [|reflexivity].
    cbn [app snd]. unfold deleteExpense. rewrite answer_store.
    match goal with
    | |- context [pool_query w delete_expense ?vs d] =>
        destruct (pool_query_store w delete_expense vs d) as [E|E]; rewrite E;
          [reflexivity|]
    end.
    cbn [map run delete_expense]. unfold param.
    cbn [lookup list_lookup mjoin option_join Nat.sub].
    rewrite U, (input_user_id uid R).
    destruct (input int4_in _) as [?|id]; [reflexivity|]. cbn.
    apply (filter_filter_implied (owned_by (Some uid))), targeted_owned.
  - (* create category *)
    destruct K2 as [-> _]; [discriminate|]. split; [reflexivity|].
    cbn [app snd]. unfold createCategory.
    destruct (JS.truthy _); cbn [negb]; [|reflexivity].
    rewrite try_catch_store.
    assert (S : filter (fun c => negb (Sql.eq_int (Category.user_id c) (Some uid)))
                  (categories (snd (pool_query w insert_category
                     [Body.name (body req); userId req] d)))
                = filter (fun c => negb (Sql.eq_int (Category.user_id c) (Some uid)))
                    (categories d)).
    { destruct (pool_query_store w insert_category
                  [Body.name (body req); userId req] d) as [E|E]; rewrite E;
        [reflexivity|].
      cbn [map run insert_category]. unfold param.
      cbn [lookup list_lookup mjoin option_join Nat.sub].
      rewrite U, (input_user_id uid R).
      destruct (categories_conflict _ _ _); [reflexivity|]. cbn.
      apply (filter_snoc_out (fun c => Sql.eq_int (Category.user_id c) (Some uid))).
      cbn. apply Z.eqb_refl. }
    destruct (pool_query _ _ _ _) as [[e|rows] d']; exact S.
  - (* delete category *)
    destruct K2 as [-> _]; [discriminate|]. split; [reflexivity|].
    cbn [app snd]. unfold deleteCategory.
    destruct (JS.truthy _); cbn [negb]; [|reflexivity].
    rewrite answer_store.
    match goal with
    | |- context [pool_query w delete_category ?vs d] =>
        destruct (pool_query_store w delete_category vs d) as [E|E]; rewrite E;
          [reflexivity|]
    end.
    cbn [map run delete_category]. unfold param.
    cbn [lookup list_lookup mjoin option_join Nat.sub].
    rewrite U, (input_user_id uid R). cbn.
    apply (filter_filter_implied
             (fun c => Sql.eq_int (Category.user_id c) (Some uid))), named_owned.
Qed.
End WriteIsolation.

(** *** Register, then log in *)

Section SignUp.
Context `{Platform}.

Lemma users_conflict_free u e d :
  ~ taken u e d -> users_conflict u e (users d) = false.
Proof.
  intros N. destruct (users_conflict u e (users d)) eqn:X; [|reflexivity].
  apply users_conflict_spec in X. contradiction.
Qed.

Lemma filter_username_fresh u (l : list User.t) x :
  (forall y, y ∈ l -> User.username y <> u) -> User.username x = u ->
  filter (fun y => Sql.eq_text (Some (User.username y)) (Some u)) (l ++ [x])%list
  = [x].
Proof.
  intros F E. rewrite filter_app.
  rewrite (filter_none (fun y => Sql.eq_text (Some (User.username y)) (Some u))).
  - rewrite app_nil_l, filter_cons_True; [reflexivity|].
    cbn. now rewrite E, String.eqb_refl.
  - intros y I. cbn. destruct (String.eqb_spec (User.username y) u); [|reflexivity].
    now apply F in I.
Qed.

(** X6.  A registration under a user name and an e-mail address not yet
    on file is answered 201 with a token for the next id of the
    sequence and the row without the hash, and stores the row with the
    hash; on the store it leaves, a login under that name with a
    password that [bcrypt.compare] accepts against that hash is answered
    200 with a token for the same id. *)
Theorem register_then_login w req d u e h :
  prepareValue (Body.username (body req)) = Some u ->
  prepareValue (Body.email (body req)) = Some e ->
  bcrypt_hash (Body.password (body req)) (salt w) = Some h ->
  outage w = None -> ~ taken u e d ->
  let id := users_id_seq d + 1 in
  let d' := set_users (users d ++ [User.Build id u e h]) (set_users_id_seq id d) in
  register w req d
  = (Response 201
       (RegisteredBody "User registered successfully" (jwt_sign id (now w))
          (NewUserRow id u e)), d')
  /\ (forall w' req',
        outage w' = None ->
        prepareValue (Body.username (body req')) = Some u ->
        bcrypt_compare (Body.password (body req')) h = Some true ->
        login w' req' d'
        = (Response 200
             (LoggedInBody "Logged in successfully" (jwt_sign id (now w')) id u),
           d')).
Proof.
  intros U E B O N id d'. split.
  - unfold register. rewrite B.
    rewrite pool_query_run by (assumption || reflexivity).
    cbn [map run insert_user]. unfold param.
    cbn [lookup list_lookup mjoin option_join Nat.sub prepareValue].
    rewrite U, E, (users_conflict_free u e d N). reflexivity.
  - intros w' req' O' U' C. unfold login.
    rewrite pool_query_run by (assumption || reflexivity).
    cbn [map run select_user]. unfold param.
    cbn [lookup list_lookup mjoin option_join Nat.sub].
    rewrite U'. unfold d'. cbn [users set_users].
    rewrite filter_username_fresh; [|..|reflexivity].
    + cbn. now rewrite C.
    + intros y I Eq. apply N. exists y. auto.
Qed.
End SignUp.

(** *** An expense from create to delete *)

Section ExpenseLifecycle.
Context `{Platform}.

Lemma filter_ext_in {A} (p q : A -> bool) (l : list A) :
  (forall x, x ∈ l -> p x = q x) ->
  filter (fun x => p x) l = filter (fun x => q x) l.
Proof.
  induction l as [|x l IH]; intros E; [reflexivity|].
  rewrite !filter_cons, (E x) by left.
  rewrite IH; [reflexivity|]. intros y I. apply E. now right.
Qed.

Lemma filter_unique {A} (f : A -> Z) (l : list A) (e : A) :
  NoDup (map f l) -> e ∈ l ->
  filter (fun x => Z.eqb (f x) (f e)) l = [e].
Proof.
  induction l as [|x l IH]; intros N I; [now apply elem_of_nil in I|].
  cbn [map] in N. apply NoDup_cons in N as [Nx N].
  rewrite filter_cons.
  apply elem_of_cons in I as [<- | I].
  - rewrite Z.eqb_refl. case_decide; [|exfalso; auto]. f_equal.
    apply (filter_none (fun x => Z.eqb (f x) (f e))).
    intros y J. destruct (Z.eqb_spec (f y) (f e)) as [E|]; [|reflexivity].
    exfalso. apply Nx. rewrite <- E.
    change (map f l) with (f <$> l). apply list_elem_of_fmap. eauto.
  - destruct (Z.eqb_spec (f x) (f e)) as [E|].
    + exfalso. apply Nx. rewrite E.
      change (map f l) with (f <$> l). apply list_elem_of_fmap. eauto.
    + case_decide; [exfalso; auto|]. now apply IH.
Qed.

Lemma filter_unique_out {A} (f : A -> Z) (l : list A) (k : Z) :
  filter (fun x => negb (Z.eqb (f x) k)) l = filter (fun x => f x <> k) l.
Proof.
  apply list_filter_iff. intros x.
  destruct (Z.eqb_spec (f x) k); cbn; intuition.
Qed.

(** the rows of a consistent store that a statement of the owner aims at *)
Lemma targeted_unique d e uid :
  consistent d -> e ∈ expenses d -> Expense.user_id e = Some uid ->
  forall x, x ∈ expenses d ->
  targeted (Some (Expense.id e)) (Some uid) x = Z.eqb (Expense.id x) (Expense.id e).
Proof.
  intros C I Ow x J. unfold targeted, Sql.eq_int.
  destruct (Z.eqb_spec (Expense.id x) (Expense.id e)) as [E|]; [|reflexivity].
  assert (X : filter (fun y => Z.eqb (Expense.id y) (Expense.id e)) (expenses d) = [e])
    by (apply filter_unique; [apply C | exact I]).
  assert (K : x ∈ filter (fun y => Z.eqb (Expense.id y) (Expense.id e)) (expenses d)).
  { apply list_elem_of_filter. split; [|exact J]. rewrite E, Z.eqb_refl. exact Logic.I. }
  rewrite X in K. apply list_elem_of_singleton in K. subst x.
  rewrite Ow. cbn. apply Z.eqb_refl.
Qed.

(** X9.  In a consistent store, the update of an expense of the caller
    is answered 200 with the row as it now stands: amount, description,
    category and time are those of the request, id and owner are kept;
    that row takes the place of the old one and every other row is
    left as it was.  (A request without [created_at] sets the time to
    NULL, where the column allows it.) *)
Theorem updateExpense_replaces w req d uid e amount created :
  userId req = JS.Num uid -> int4 uid -> outage w = None ->
  consistent d -> e ∈ expenses d -> Expense.user_id e = Some uid ->
  parseInt (params_id req) = Some (Expense.id e) -> int4 (Expense.id e) ->
  input numeric_in (prepareValue (Body.amount (body req))) = inr amount ->
  input timestamp_in (prepareValue (Body.created_at (body req))) = inr created ->
  (created = None -> created_at_not_null = false) ->
  let e' := Expense.Build (Expense.id e) amount
              (prepareValue (Body.description (body req)))
              (prepareValue (Body.category (body req))) created (Some uid) in
  updateExpense w req d
  = (Response 200 (RowBody (Some (ExpenseRow e'))),
     Db (users d) (users_id_seq d)
        (map (fun x => if Z.eqb (Expense.id x) (Expense.id e) then e' else x)
             (expenses d))
        (expenses_id_seq d) (categories d)).
Proof.
  intros U R O C I Ow PI RI A Cr NN e'.
  unfold updateExpense, answer.
  rewrite pool_query_run by (assumption || reflexivity).
  rewrite PI, U. cbn [map JS.of_parseInt].
  cbn [run update_expense]. unfold param.
  cbn [lookup list_lookup mjoin option_join Nat.sub].
  rewrite A, Cr, (input_user_id _ RI), (input_user_id uid R).
  rewrite (filter_ext_in _ (fun x => Z.eqb (Expense.id x) (Expense.id e)) _
             (targeted_unique d e uid C I Ow)).
  rewrite (filter_unique Expense.id _ e (expense_ids_distinct d C) I).
  assert (M : map (fun x => if targeted (Some (Expense.id e)) (Some uid) x
                            then Expense.Build (Expense.id x) amount
                                   (prepareValue (Body.description (body req)))
                                   (prepareValue (Body.category (body req)))
                                   created (Expense.user_id x)
                            else x) (expenses d)
              = map (fun x => if Z.eqb (Expense.id x) (Expense.id e) then e' else x)
                    (expenses d)).
  { apply map_ext_in. intros x J. apply list_elem_of_In in J.
    rewrite (targeted_unique d e uid C I Ow x J).
    destruct (Z.eqb_spec (Expense.id x) (Expense.id e)) as [E|]; [|reflexivity].
    assert (X : x = e).
    { assert (K : x ∈ filter (fun y => Z.eqb (Expense.id y) (Expense.id e)) (expenses d)).
      { apply list_elem_of_filter. split; [|exact J]. rewrite E, Z.eqb_refl. exact Logic.I. }
      rewrite (filter_unique Expense.id _ e (expense_ids_distinct d C) I) in K.
      now apply list_elem_of_singleton in K. }
    subst x. unfold e'. now rewrite Ow. }
  rewrite M. cbn [map head]. rewrite Ow. fold e'.
  destruct created as [t|]; [reflexivity|].
  rewrite (NN eq_refl). reflexivity.
Qed.


(** X8.  A create request with a readable amount and time is answered
    201 with the row stored: its id is the next of the sequence, which
    no row of a consistent store carries, and its owner is the caller;
    a delete of that id by the caller on the resulting store is
    answered 200 and leaves the expenses as they were before the
    create (the sequence stays advanced). *)
Theorem createExpense_then_delete w req d uid amount s t :
  userId req = JS.Num uid -> int4 uid -> outage w = None ->
  consistent d ->
  input numeric_in (prepareValue (Body.amount (body req))) = inr amount ->
  prepareValue (Body.created_at (body req)) = Some s -> timestamp_in s = Some t ->
  let id := expenses_id_seq d + 1 in
  let e := Expense.Build id amount (prepareValue (Body.description (body req)))
             (prepareValue (Body.category (body req))) (Some t) (Some uid) in
  let d' := set_expenses (expenses d ++ [e]) (set_expenses_id_seq id d) in
  createExpense w req d = (Response 201 (RowBody (Some (ExpenseRow e))), d')
  /\ (id ∉ map Expense.id (expenses d))
  /\ (forall w' req',
        outage w' = None -> userId req' = JS.Num uid ->
        int4_in (params_id req') = Some id ->
        deleteExpense w' req' d'
        = (Response 200 (MessageBody "Expense deleted successfully"),
           set_expenses (expenses d) d')).
Proof.
  intros U R O C A S T id e d'.
  assert (Fresh : forall x, x ∈ expenses d -> Expense.id x <> id).
  { intros x J. pose proof (expense_ids_drawn d C) as F.
    rewrite Forall_forall in F. specialize (F x J). cbn in F. unfold id. lia. }
  split; [|split].
  - unfold createExpense, answer.
    rewrite pool_query_run by (assumption || reflexivity).
    cbn [map run insert_expense]. unfold param.
    cbn [lookup list_lookup mjoin option_join Nat.sub].
    rewrite A, S, U, (input_user_id uid R). cbn [input]. rewrite T. reflexivity.
  - intros J. change (map ?f ?l) with (f <$> l) in J.
    apply list_elem_of_fmap in J as (x & E & J). now apply (Fresh x J).
  - intros w' req' O' U' PI.
    unfold deleteExpense, answer.
    rewrite pool_query_run by (assumption || reflexivity).
    rewrite U'. cbn [map run delete_expense]. unfold param.
    cbn [lookup list_lookup mjoin option_join Nat.sub].
    rewrite (input_user_id uid R). cbn [prepareValue input]. rewrite PI.
    assert (F : forall x, x ∈ expenses d ->
                  targeted (Some id) (Some uid) x = false).
    { intros x J. unfold targeted, Sql.eq_int.
      destruct (Z.eqb_spec (Expense.id x) id) as [E|]; [|reflexivity].
      now apply Fresh in J. }
    assert (Te : targeted (Some id) (Some uid) e = true).
    { unfold targeted, Sql.eq_int, e. cbn. now rewrite !Z.eqb_refl. }
    unfold d'. cbn [expenses set_expenses set_expenses_id_seq].
    rewrite !filter_app, (filter_none _ _ F), (filter_all _ _ F).
    rewrite !filter_cons, !filter_nil, Te. cbn [negb].
    repeat case_decide; try (exfalso; auto; fail).
    cbn. now rewrite app_nil_r.
Qed.
End ExpenseLifecycle.

(** *** A category from create to delete *)

Section CategoryLifecycle.
Context `{Platform}.

Lemma categories_conflict_free n uid d :
  ~ has_category n uid d -> categories_conflict (Some n) (Some uid) (categories d) = false.
Proof.
  intros N. destruct (categories_conflict _ _ _) eqn:X; [|reflexivity].
  apply categories_conflict_spec in X. contradiction.
Qed.

Lemma set_categories_same d : set_categories (categories d) d = d.
Proof. now destruct d. Qed.

(** X19.  A category created under a name the caller does not have yet is
    answered 201 and appended; the delete of the same name by the same
    caller then is answered 200 and restores the store exactly, while
    the same delete on the store before the create is answered 404. *)
Theorem createCategory_then_delete w w' req d uid n :
  userId req = JS.Num uid -> int4 uid ->
  outage w = None -> outage w' = None ->
  JS.truthy (Body.name (body req)) = true ->
  prepareValue (Body.name (body req)) = Some n ->
  ~ has_category n uid d ->
  let d' := set_categories
              (categories d ++ [Category.Build (Some n) (Some uid)]) d in
  createCategory w req d
  = (Response 201 (RowBody (Some (NameRow (Some n)))), d')
  /\ deleteCategory w' req d'
     = (Response 200 (MessageBody "Category deleted successfully"), d)
  /\ deleteCategory w' req d
     = (Response 404
          (ErrorBody "Category not found or you do not have permission to delete it."),
        d).
Proof.
  intros U R O O' T N Fr d'.
  assert (F : forall c, c ∈ categories d -> named (Some n) (Some uid) c = false).
  { intros c I. destruct (named (Some n) (Some uid) c) eqn:X; [|reflexivity].
    exfalso. apply Fr. exists c. apply named_spec in X. tauto. }
  assert (Run : forall d0,
    deleteCategory w' req d0
    = let rows := filter (fun c => named (Some n) (Some uid) c) (categories d0) in
      (if Nat.eqb (rowCount (map CategoryRow rows)) 0 then
         Response 404
           (ErrorBody "Category not found or you do not have permission to delete it.")
       else Response 200 (MessageBody "Category deleted successfully"),
       set_categories
         (filter (fun c => negb (named (Some n) (Some uid) c)) (categories d0)) d0)).
  { intros d0. unfold deleteCategory, answer. rewrite T. cbn [negb].
    rewrite pool_query_run by (assumption || reflexivity).
    cbn [map run delete_category]. unfold param.
    cbn [lookup list_lookup mjoin option_join Nat.sub].
    rewrite U, N, (input_user_id uid R). reflexivity. }
  split; [|split].
  - unfold createCategory. rewrite T. cbn [negb].
    rewrite pool_query_run by (assumption || reflexivity).
    cbn [map run insert_category]. unfold param.
    cbn [lookup list_lookup mjoin option_join Nat.sub].
    rewrite U, N, (input_user_id uid R), (categories_conflict_free n uid d Fr).
    reflexivity.
  - rewrite Run. unfold d'. cbn [categories set_categories].
    rewrite !filter_app, (filter_none _ _ F), (filter_all _ _ F).
    rewrite !filter_cons, !filter_nil.
    assert (Tn : named (Some n) (Some uid) (Category.Build (Some n) (Some uid)) = true)
      by (apply named_spec; split; reflexivity).
    rewrite Tn. cbn [negb]. repeat case_decide; try (exfalso; auto; fail).
    cbn. rewrite app_nil_r. now destruct d.
  - rewrite Run. cbn zeta.
    rewrite (filter_none _ _ F), (filter_all _ _ F), set_categories_same.
    reflexivity.
Qed.

End CategoryLifecycle.





(** *** What a grouped report holds *)

Section Grouping.
Context {K : Type} `{EqDecision K} (key : Expense.t -> option K).

End Grouping.

(** *** The reports *)

Section ReportContents.
Context `{Platform}.









End ReportContents.

(** *** A report without its window *)

Section MissingWindow.
Context `{Platform}.

Lemma filter_nothing {A} (p : A -> bool) (l : list A) :
  (forall x, p x = false) -> filter (fun x => p x) l = [].
Proof. intros F. apply filter_none. auto. Qed.

Ltac nothing :=
  rewrite filter_nothing;
  [reflexivity
  | intros e; unfold in_month, in_year, created_between, created_date_between,
      Sql.eq_numeric, Sql.between_timestamp, Sql.between_date;
    rewrite ?andb_false_r;
    repeat match goal with
           | |- context [match ?x with _ => _ end] => destruct x
           end;
    rewrite ?andb_false_r; reflexivity].

(** X18.  A report whose window lacks a parameter (the query leaves it
    out, so NULL is sent in its place) never gives rows: it is answered
    either 500 with the message of the route or 200 with the empty
    list, since a comparison with NULL holds for no row. *)
Theorem report_without_window r w req d :
  (exists v, v ∈ window r req /\ prepareValue v = None) ->
  fst (snd (app r) w req d) = Response 500 (ErrorBody (failure_message r))
  \/ fst (snd (app r) w req d) = Response 200 (RowsBody []).
Proof.
  intros (v & I & N).
  destruct r; cbn [window] in I; try (now apply elem_of_nil in I);
    cbn [app snd failure_message];
    unfold monthlySummary, weeklyCategorySummary, yearlyCategorySummary,
      yearlySummary, weeklySummary, listExpensesRange, rangeCategorySummary,
      rangeDailySummary, answer, pool_query;
    (destruct (outage w); [now left|]);
    (destruct (parse_bind _ _); [now left|]);
    cbn [map run select_monthly_summary select_weekly_category_summary
           select_yearly_category_summary select_yearly_summary
           select_weekly_summary select_expenses_range
           select_range_category_summary select_range_daily_summary];
    unfold param; cbn [lookup list_lookup mjoin option_join Nat.sub];
    repeat (apply elem_of_cons in I as [-> | I]);
    try (now apply elem_of_nil in I);
    rewrite N; cbn [input];
    repeat match goal with
           | |- context [input ?f ?p] => destruct (input f p)
           end;
    try (now left); right; cbn [try_catch fst]; nothing.
Qed.
End MissingWindow.

(** *** Values the column types reject *)

Section Unreadable.
Context `{Platform}.

Lemma input_unreadable {A} (f : string -> option A) v :
  unreadable f v -> input f (prepareValue v) = inl (PgError invalid_text_representation).
Proof. intros (s & -> & E). cbn. now rewrite E. Qed.

(** X11.  A value the column type cannot read fails the statement
    before any row is touched: a create or an update whose amount is
    not a number or whose [created_at] is not a time, and a delete
    whose id is not an integer, are answered 500 with the message of
    the route and leave the store as it was. *)
Theorem unreadable_values_fail w req d :
  outage w = None ->
  (unreadable numeric_in (Body.amount (body req))
   \/ unreadable timestamp_in (Body.created_at (body req)) ->
   createExpense w req d = (Response 500 (ErrorBody "Failed to add expense"), d)
   /\ updateExpense w req d
      = (Response 500 (ErrorBody "Failed to update expense"), d))
  /\ (int4_in (params_id req) = None ->
      deleteExpense w req d
      = (Response 500 (ErrorBody "Failed to delete expense"), d)).
Proof.
  intros O. split.
  - intros U. unfold createExpense, updateExpense, answer.
    rewrite !pool_query_run by (assumption || reflexivity).
    cbn [map run insert_expense update_expense]. unfold param.
    cbn [lookup list_lookup mjoin option_join Nat.sub].
    destruct U as [U | U]; rewrite (input_unreadable _ _ U).
    + split; reflexivity.
    + destruct (input numeric_in _); split; reflexivity.
  - intros E. unfold deleteExpense, answer.
    rewrite pool_query_run by (assumption || reflexivity).
    cbn [map run delete_expense]. unfold param.
    cbn [lookup list_lookup mjoin option_join Nat.sub prepareValue input].
    now rewrite E.
Qed.

End Unreadable.

(** *** The first server file *)

Section FirstServer.
Context `{Platform}.

(** X22.  The delete route of the first server file looks at the id
    alone: whoever the row belongs to, a row with that id is taken
    away and the answer is 200; when no row carries the id the answer
    is 404 and the store is left as it was. *)
Theorem legacy_delete_ignores_owner w req d id :
  outage w = None -> int4_in (params_id req) = Some id ->
  ((exists e, e ∈ expenses d /\ Expense.id e = id) ->
   Legacy.deleteExpense w req d
   = (Response 200 (MessageBody "Expense deleted successfully"),
      Db (users d) (users_id_seq d)
         (filter (fun e => Expense.id e <> id) (expenses d))
         (expenses_id_seq d) (categories d)))
  /\ (~ (exists e, e ∈ expenses d /\ Expense.id e = id) ->
      Legacy.deleteExpense w req d
      = (Response 404 (ErrorBody "Expense not found"), d)).
Proof.
  intros O I.
  assert (Run : Legacy.deleteExpense w req d
    = (if Nat.eqb (rowCount (map ExpenseRow
            (filter (fun e => Z.eqb (Expense.id e) id) (expenses d)))) 0
       then Response 404 (ErrorBody "Expense not found")
       else Response 200 (MessageBody "Expense deleted successfully"),
       set_expenses (filter (fun e => negb (Z.eqb (Expense.id e) id)) (expenses d)) d)).
  { unfold Legacy.deleteExpense, answer.
    rewrite pool_query_run by (assumption || reflexivity).
    cbn [map run Legacy.delete_expense]. unfold param.
    cbn [lookup list_lookup mjoin option_join Nat.sub prepareValue input].
    rewrite I. reflexivity. }
  rewrite Run. split.
  - intros (e & J & E).
    destruct (filter (fun e => Z.eqb (Expense.id e) id) (expenses d)) as [|x l] eqn:X.
    + exfalso. eapply (filter_nil_not_elem_of _ _ e X); [|exact J].
      rewrite E, Z.eqb_refl. exact Logic.I.
    + cbn. now rewrite filter_unique_out.
  - intros N.
    assert (F : forall x, x ∈ expenses d -> Z.eqb (Expense.id x) id = false).
    { intros x J. destruct (Z.eqb_spec (Expense.id x) id); [|reflexivity].
      exfalso. apply N. eauto. }
    rewrite (filter_none _ _ F), (filter_all _ _ F), set_expenses_same.
    reflexivity.
Qed.

End FirstServer.

(** *** Through the guard *)

Section ThroughRoutes.
Context `{Platform}.

Lemma serve_cases r w req d :
  (exists res, serve r w req d = (res, d) /\ status res = 401)
  \/ (exists req', serve r w req d = snd (app r) w req' d
                   /\ body req' = body req /\ query req' = query req
                   /\ params_id req' = params_id req
                   /\ (guarded r -> exists uid,
                         verified w (authorization req) = Some uid
                         /\ userId req' = JS.Num uid)).
Proof.
  assert (G : guarded r \/ r = PostRegister \/ r = PostLogin).
  { unfold guarded. destruct r; auto; left; split; discriminate. }
  destruct G as [G | [-> | ->]].
  - rewrite (serve_guarded r w req d G).
    destruct (verified w (authorization req)) as [uid|] eqn:V.
    + rewrite (authMiddleware_accepts w req uid V). right.
      exists (set_userId (JS.Num uid) req). repeat split; eauto.
    + destruct (authMiddleware_rejects w req V) as (res & -> & S). left. eauto.
  - right. exists req. repeat split. intros [N _]. congruence.
  - right. exists req. repeat split. intros [_ N]. congruence.
Qed.

(** X2.  A request changes at most the table its route writes to: the
    read routes and the login leave the whole store as it was, whatever
    the answer; a registration changes nothing but the users and their
    sequence, the three expense writes nothing but the expenses and
    their sequence, the two category writes nothing but the
    categories. *)
Theorem every_route_keeps_to_its_table r w req d :
  (target r = None -> snd (serve r w req d) = d)
  /\ (target r <> Some Users ->
      users (snd (serve r w req d)) = users d
      /\ users_id_seq (snd (serve r w req d)) = users_id_seq d)
  /\ (target r <> Some Expenses ->
      expenses (snd (serve r w req d)) = expenses d
      /\ expenses_id_seq (snd (serve r w req d)) = expenses_id_seq d)
  /\ (target r <> Some Categories ->
      categories (snd (serve r w req d)) = categories d).
Proof.
  assert (K : keeps (target r) d (snd (serve r w req d))).
  { destruct (serve_cases r w req d) as [(res & -> & _) | (req' & -> & _)];
      [apply keeps_refl | apply handler_keeps]. }
  destruct K as (K1 & K2 & K3). split; [|auto].
  intros T. rewrite T in *.
  destruct K1 as [A1 A2]; [discriminate|].
  destruct K2 as [B1 B2]; [discriminate|].
  specialize (K3 ltac:(discriminate)).
  destruct (snd (serve r w req d)), d; cbn in *; congruence.
Qed.

Lemma serve_consistent r w req d :
  consistent d -> consistent (snd (serve r w req d)).
Proof.
  intros C.
  destruct (serve_cases r w req d) as [(res & -> & _) | (req' & -> & _)];
    [exact C | now apply handler_consistent].
Qed.

Lemma empty_store_consistent : consistent empty_store.
Proof. split; cbn; constructor. Qed.

(** X3.  The constraints survive every history of requests: from a
    consistent store (the empty one is) any sequence of requests to any
    routes, answered or refused, leads to a consistent store: ids are
    never drawn twice nor beyond the sequence, user names, e-mail
    addresses and (name, user) pairs of categories stay unique. *)
Theorem reachable_stores_are_consistent log d :
  consistent d -> consistent (replay log d).
Proof.
  revert d. induction log as [|[[r w] req] log IH]; intros d C; cbn.
  - exact C.
  - apply IH, serve_consistent, C.
Qed.
End ThroughRoutes.

(** *** One user beside another *)

Section Isolated.
Context `{Platform}.

Lemma serve_verified r w req d uid :
  guarded r -> verified w (authorization req) = Some uid ->
  serve r w req d = snd (app r) w (set_userId (JS.Num uid) req) d.
Proof.
  intros G V. now rewrite (serve_guarded r w req d G), (authMiddleware_accepts w req uid V).
Qed.

(** X4.  What the ten routes that read expenses answer to a verified
    token depends on the expenses of that user alone: over two stores
    that agree on the rows owned by the user the response is the same,
    whatever the other users have on file. *)
Theorem reports_depend_on_own_rows r w req d1 d2 uid :
  reads_expenses r = true ->
  verified w (authorization req) = Some uid -> int4 uid ->
  own_expenses uid d1 = own_expenses uid d2 ->
  fst (serve r w req d1) = fst (serve r w req d2).
Proof.
  intros R V I E.
  assert (G : guarded r) by (split; intros ->; discriminate).
  rewrite !(serve_verified r w req _ uid G V).
  now apply (handler_reads_own r w _ d1 d2 uid).
Qed.

(** X5.  A request with a verified token never touches what belongs to
    another user: whichever guarded route it goes to and whatever it
    carries, the expenses and the categories of everybody else are
    afterwards what they were, in the same order. *)
Theorem requests_leave_foreign_rows r w req d uid :
  guarded r ->
  verified w (authorization req) = Some uid -> int4 uid ->
  foreign_expenses uid (snd (serve r w req d)) = foreign_expenses uid d
  /\ foreign_categories uid (snd (serve r w req d)) = foreign_categories uid d.
Proof.
  intros G V I. rewrite (serve_verified r w req d uid G V).
  now apply handler_leaves_foreign_rows.
Qed.
End Isolated.

(** * Worked requests *)

(** The properties above at the requests of [Scenario]. *)
Module Worked.
Import Scenario.

Lemma int4_small n : -1000 <= n <= 1000 -> int4 n.
Proof. unfold int4. lia. Qed.

Lemma rent_is_bobs : ~ owns 1 4 ledger.
Proof.
  intros (e & I & Id & U). unfold ledger in I. cbn [expenses] in I.
  repeat (apply elem_of_cons in I as [-> | I]); try discriminate.
  now apply elem_of_nil in I.
Qed.

Lemma nothing_has_id_9 : ~ owns 1 9 ledger.
Proof.
  intros (e & I & Id & U). unfold ledger in I. cbn [expenses] in I.
  repeat (apply elem_of_cons in I as [-> | I]); try discriminate.
  now apply elem_of_nil in I.
Qed.

(** *** Somebody else's expense, and an id nobody has *)

Lemma foreign_expense_not_found_witness :
  @updateExpense nullable up (alice_in "4" no_query edit) ledger
  = (Response 404
       (ErrorBody "Expense not found or you do not have permission to edit it."),
     ledger)
  /\ @deleteExpense nullable up (alice_in "4" no_query no_body) ledger
     = (Response 404 (ErrorBody "Expense not found or not authorized"), ledger)
  /\ @updateExpense nullable up (alice_in "9" no_query edit) ledger
     = @updateExpense nullable up (alice_in "4" no_query edit) ledger.
Proof.
  destruct (@foreign_expense_not_found nullable up
              (alice_in "4" no_query edit) ledger 1 4) as [Hu _];
    [reflexivity | apply int4_small; lia | reflexivity | exact rent_is_bobs |].
  destruct (@foreign_expense_not_found nullable up
              (alice_in "4" no_query no_body) ledger 1 4) as [_ Hd];
    [reflexivity | apply int4_small; lia | reflexivity | exact rent_is_bobs |].
  destruct (@foreign_expense_not_found nullable up
              (alice_in "9" no_query edit) ledger 1 9) as [Hn _];
    [reflexivity | apply int4_small; lia | reflexivity | exact nothing_has_id_9 |].
  assert (R4 : int4 4) by (apply int4_small; lia).
  assert (R9 : int4 9) by (apply int4_small; lia).
  split; [exact (Hu eq_refl R4 _ _ eq_refl eq_refl)|].
  split; [exact (Hd eq_refl)|].
  rewrite (Hu eq_refl R4 _ _ eq_refl eq_refl).
  exact (Hn eq_refl R9 _ _ eq_refl eq_refl).
Defined.

(** Bob's row is untouched by Alice's attempts, and his own delete
    goes through. *)
Example bob_deletes_his_rent :
  @deleteExpense nullable up
    (Request (JS.Str "user.2") "4" no_query no_body (JS.Num 2)) ledger
  = (Response 200 (MessageBody "Expense deleted successfully"),
     set_expenses [bus; coffee; supper] ledger).
Proof. reflexivity. Qed.

(** *** A create request without [created_at] *)

Lemma createExpense_without_created_at_witness :
  (fst (@createExpense nullable up (alice_in "" no_query tea) ledger)
   = Response 500 (ErrorBody "Failed to add expense")
   /\ expenses (snd (@createExpense nullable up (alice_in "" no_query tea) ledger))
      = expenses ledger)
  \/ (exists e,
        @createExpense nullable up (alice_in "" no_query tea) ledger
        = (Response 201 (RowBody (Some (ExpenseRow e))),
           set_expenses (expenses ledger ++ [e])
             (set_expenses_id_seq (expenses_id_seq ledger + 1) ledger))
        /\ Expense.id e = expenses_id_seq ledger + 1
        /\ Expense.created_at e = None).
Proof.
  apply (@createExpense_without_created_at nullable up
           (alice_in "" no_query tea) ledger).
  reflexivity.
Defined.

(** Where the column is nullable the row is stored with no time at
    all, although the request was made at [noon]. *)
Example tea_is_stored_without_a_time :
  @serve nullable PostExpenses up (as_alice "" no_query tea) ledger
  = (Response 201 (RowBody (Some (ExpenseRow tea_row))),
     Db [alice; bob] 2 [bus; coffee; supper; rent; tea_row] 5
        [Category.Build (Some "food") (Some 1)]).
Proof. reflexivity. Qed.

(** Where the column is declared NOT NULL the request fails. *)
Example tea_is_refused_by_a_strict_column :
  fst (@serve strict PostExpenses up (as_alice "" no_query tea) ledger)
  = Response 500 (ErrorBody "Failed to add expense").
Proof. reflexivity. Qed.

(** The create route of the first server file stores the time of the
    request. *)
Example legacy_tea_is_stored_at_noon :
  fst (@Legacy.createExpense nullable up (anonymous no_query tea) ledger)
  = Response 201
      (RowBody (Some (ExpenseRow
         (Expense.Build 5 (Some 3%Q) (Some "tea") (Some "food") (Some noon) None)))).
Proof. reflexivity. Qed.

(** *** The list with and without the month filter *)

Lemma listExpenses_unfiltered_fails_witness :
  @listExpenses nullable up (alice_in "" month_only no_body) ledger
  = (Response 500 (ErrorBody "Failed to retrieve expenses"), ledger)
  /\ @listExpenses nullable up (alice_in "" no_query no_body) ledger
     = (Response 500 (ErrorBody "Failed to retrieve expenses"), ledger).
Proof.
  split.
  - apply (@listExpenses_unfiltered_fails nullable up
             (alice_in "" month_only no_body) ledger).
    reflexivity.
  - apply (@listExpenses_unfiltered_fails nullable up
             (alice_in "" no_query no_body) ledger).
    reflexivity.
Defined.

Example list_with_month_only :
  @serve nullable GetExpenses up (as_alice "" month_only no_body) ledger
  = (Response 500 (ErrorBody "Failed to retrieve expenses"), ledger).
Proof. reflexivity. Qed.

Example list_of_january :
  @serve nullable GetExpenses up (as_alice "" january no_body) ledger
  = (Response 200 (RowsBody [ExpenseRow bus; ExpenseRow coffee; ExpenseRow supper]),
     ledger).
Proof. reflexivity. Qed.

(** *** With and without a token *)

Example anonymous_list_is_refused :
  @serve nullable GetExpenses up (anonymous january no_body) ledger
  = (Response 401 (ErrorBody "No token, authorization denied"), ledger).
Proof. reflexivity. Qed.

Example forged_token_is_refused :
  @serve nullable DeleteExpense up
    (Request (JS.Str "guess") "1" no_query no_body JS.Undefined) ledger
  = (Response 401 (ErrorBody "Token is not valid"), ledger).
Proof. reflexivity. Qed.

(** *** Registering a name or an address twice *)

Lemma register_conflict_witness :
  fst (@register nullable up again ledger)
  = Response 400 (ErrorBody "Username or email already exists")
  /\ users (snd (@register nullable up again ledger)) = users ledger
  /\ fst (@register nullable down again ledger)
     = Response 500 (ErrorBody "Server error during registration")
  /\ users (snd (@register nullable down again ledger)) = users ledger.
Proof.
  destruct (@register_conflict nullable up again ledger "$2a$10$pw" eq_refl)
    as [Hc _].
  destruct (@register_conflict nullable down again ledger "$2a$10$pw" eq_refl)
    as [_ Hf].
  destruct (Hc "alice" "other@x.com" eq_refl eq_refl eq_refl) as [C1 C2].
  { exists alice. split; [left | left; reflexivity]. }
  destruct (Hf (JsError "connect ECONNREFUSED") ledger eq_refl) as [F1 F2].
  { discriminate. }
  auto.
Defined.

(** *** An unknown name and a wrong password *)

Lemma login_failures_indistinguishable_witness :
  @login nullable up stranger ledger
  = (Response 400 (ErrorBody "Invalid username or password"), ledger)
  /\ @login nullable up mistyped ledger
     = (Response 400 (ErrorBody "Invalid username or password"), ledger)
  /\ fst (@login nullable up stranger ledger)
     = fst (@login nullable up mistyped ledger).
Proof.
  apply (@login_failures_indistinguishable nullable up stranger ledger
           up mistyped ledger eq_refl eq_refl).
  - intros x I. unfold ledger in I. cbn [users] in I.
    repeat (apply elem_of_cons in I as [-> | I]); try discriminate.
    now apply elem_of_nil in I.
  - split.
    + exists alice. split; [left | reflexivity].
    + intros x I E. unfold ledger in I. cbn [users] in I.
      repeat (apply elem_of_cons in I as [-> | I]); try discriminate.
      * reflexivity.
      * now apply elem_of_nil in I.
Defined.

Lemma login_tells_names_apart_witness :
  @login nullable up carol_without_password ledger
  = (Response 400 (ErrorBody "Invalid username or password"), ledger)
  /\ @login nullable up alice_without_password ledger
     = (Response 500 (ErrorBody "Server error during login"), ledger)
  /\ fst (@login nullable up alice_without_password ledger)
     <> fst (@login nullable up carol_without_password ledger).
Proof.
  apply (@login_tells_names_apart nullable up ledger
           alice_without_password carol_without_password eq_refl).
  - intros x I. unfold ledger in I. cbn [users] in I.
    repeat (apply elem_of_cons in I as [-> | I]); try discriminate.
    now apply elem_of_nil in I.
  - exists alice. split; [left | reflexivity].
  - reflexivity.
Defined.

Example right_password_logs_in :
  fst (@login nullable up
         (anonymous no_query
            (account_body (JS.Str "alice") JS.Undefined (JS.Str "pw123")))
         ledger)
  = Response 200 (LoggedInBody "Logged in successfully" "user.1" 1 "alice").
Proof. reflexivity. Qed.

(** *** The first three days of January *)


(** The morning bus fare of 3 January counts in the range report... *)
Example range_daily_summary_of_first_days :
  fst (@serve nullable GetRangeDailySummary up
         (as_alice "" first_days no_body) ledger)
  = Response 200
      (RowsBody [DayTotal (Some jan1) (Some 4%Q);
                 DayTotal (Some jan3) (Some (25 # 2))]).
Proof. reflexivity. Qed.

(** ... and is missing from the weekly one, which stops at the
    midnight that opens 3 January. *)
Example weekly_summary_of_first_days :
  fst (@serve nullable GetWeeklySummary up
         (as_alice "" first_days no_body) ledger)
  = Response 200
      (RowsBody [DayTotal (Some jan1) (Some 4%Q);
                 DayTotal (Some jan3) (Some (5 # 2))]).
Proof. reflexivity. Qed.

Example weekly_category_summary_of_first_days :
  fst (@serve nullable GetWeeklyCategorySummary up
         (as_alice "" first_days no_body) ledger)
  = Response 200 (RowsBody [CategoryTotal (Some "food") (Some (13 # 2))]).
Proof. reflexivity. Qed.

Example range_category_summary_of_first_days :
  fst (@serve nullable GetRangeCategorySummary up
         (as_alice "" first_days no_body) ledger)
  = Response 200
      (RowsBody [CategoryTotal (Some "transport") (Some 10%Q);
                 CategoryTotal (Some "food") (Some (13 # 2))]).
Proof. reflexivity. Qed.

Lemma weekly_reports_cut_the_end_date_witness :
  exists weekly ranged,
    @weeklySummary nullable up (alice_in "" first_days no_body) ledger
    = (Response 200 (RowsBody (by_day weekly)), ledger)
    /\ @weeklyCategorySummary nullable up (alice_in "" first_days no_body) ledger
       = (Response 200 (RowsBody (by_category weekly)), ledger)
    /\ @rangeDailySummary nullable up (alice_in "" first_days no_body) ledger
       = (Response 200 (RowsBody (by_day ranged)), ledger)
    /\ @rangeCategorySummary nullable up (alice_in "" first_days no_body) ledger
       = (Response 200 (RowsBody (by_category ranged)), ledger)
    /\ (bus ∉ weekly) /\ (bus ∈ ranged).
Proof.
  destruct (@weekly_reports_cut_the_end_date nullable up
              (alice_in "" first_days no_body) ledger 1
              "2024-01-01" "2024-01-03" (midnight jan1) jan1 jan3 bus
              (Timestamp jan3 36000000000))
    as (weekly & ranged & W1 & W2 & R1 & R2 & _ & _ & Out & In);
    [reflexivity | apply int4_small; lia | reflexivity | reflexivity
     | reflexivity | reflexivity | reflexivity | reflexivity | reflexivity
     | left | reflexivity | reflexivity | reflexivity | reflexivity
     | reflexivity |].
  exists weekly, ranged. auto 10.
Defined.

(** *** Category names *)

Lemma createCategory_outcomes_witness :
  @createCategory nullable down (alice_in "" no_query (category_body (JS.Str "")))
    ledger
  = (Response 400 (ErrorBody "Category name is required"), ledger)
  /\ @createCategory nullable up
       (alice_in "" no_query (category_body (JS.Str "food"))) ledger
     = (Response 409 (ErrorBody "Category already exists"), ledger)
  /\ @createCategory nullable up
       (alice_in "" no_query (category_body (JS.Str "travel"))) ledger
     = (Response 201 (RowBody (Some (NameRow (Some "travel")))),
        Db [alice; bob] 2 [bus; coffee; supper; rent] 4
           [Category.Build (Some "food") (Some 1);
            Category.Build (Some "travel") (Some 1)]).
Proof.
  assert (R1 : int4 1) by (apply int4_small; lia).
  destruct (@createCategory_outcomes nullable up
              (alice_in "" no_query (category_body (JS.Str ""))) ledger 1
              eq_refl R1) as [Hn _].
  destruct (@createCategory_outcomes nullable up
              (alice_in "" no_query (category_body (JS.Str "food"))) ledger 1
              eq_refl R1) as [_ Hf].
  destruct (@createCategory_outcomes nullable up
              (alice_in "" no_query (category_body (JS.Str "travel"))) ledger 1
              eq_refl R1) as [_ Ht].
  split; [exact (Hn eq_refl down)|]. split.
  - apply (Hf "food" eq_refl eq_refl eq_refl).
    exists (Category.Build (Some "food") (Some 1)).
    split; [left | split; reflexivity].
  - apply (Ht "travel" eq_refl eq_refl eq_refl).
    intros (c & I & N & _). unfold ledger in I. cbn [categories] in I.
    repeat (apply elem_of_cons in I as [-> | I]); try discriminate.
    now apply elem_of_nil in I.
Defined.

Lemma deleteCategory_requires_name_witness :
  @deleteCategory nullable down
    (alice_in "" no_query (category_body (JS.Str ""))) ledger
  = (Response 400 (ErrorBody "Category name is required"), ledger)
  /\ @serve nullable DeleteCategories down (as_alice "" no_query no_body) ledger
     = (Response 400 (ErrorBody "Category name is required"), ledger).
Proof.
  split.
  - apply (@deleteCategory_requires_name nullable down
             (alice_in "" no_query (category_body (JS.Str ""))) ledger).
    reflexivity.
  - apply (proj2 (@deleteCategory_requires_name nullable down
                    (as_alice "" no_query no_body) ledger eq_refl) 1).
    reflexivity.
Defined.

Example delete_category_twice :
  let once :=
    @serve nullable DeleteCategories up
      (as_alice "" no_query (category_body (JS.Str "food"))) ledger in
  fst once = Response 200 (MessageBody "Category deleted successfully")
  /\ fst (@serve nullable DeleteCategories up
            (as_alice "" no_query (category_body (JS.Str "food"))) (snd once))
     = Response 404
         (ErrorBody "Category not found or you do not have permission to delete it.").
Proof. split; reflexivity. Qed.

End Worked.

(** * Worked sessions *)

(** The properties of the whole table of routes at the requests of
    [Scenario]. *)
Module Walkthrough.
Import Scenario.

Lemma one_is_int4 : int4 1.
Proof. unfold int4. lia. Qed.

Lemma ledger_consistent : consistent ledger.
Proof. split; cbn; apply (bool_decide_unpack _); reflexivity. Qed.

Lemma carol_is_new : ~ taken "carol" "c@x.com" ledger.
Proof.
  intros (x & I & E). unfold ledger in I. cbn [users] in I.
  repeat (apply elem_of_cons in I as [-> | I]);
    [destruct E; discriminate | destruct E; discriminate |].
  now apply elem_of_nil in I.
Qed.

Lemma no_travel_yet : ~ has_category "travel" 1 ledger.
Proof.
  intros (c & I & N & _). unfold ledger in I. cbn [categories] in I.
  apply elem_of_cons in I as [-> | I]; [discriminate|].
  now apply elem_of_nil in I.
Qed.

(** *** From the empty store *)

Lemma reachable_stores_are_consistent_witness :
  consistent (@replay nullable history empty_store).
Proof.
  apply (@reachable_stores_are_consistent nullable history empty_store).
  split; cbn; constructor.
Defined.

Example history_ends :
  @replay nullable history empty_store
  = Db [User.Build 1 "carol" "c@x.com" "$2a$10$pw123"] 2 [] 1
       [Category.Build (Some "travel") (Some 1)].
Proof. reflexivity. Qed.

(** *** What belongs to whom *)

Lemma reports_depend_on_own_rows_witness :
  fst (@serve nullable GetExpenses up (as_alice "" january no_body) ledger)
  = fst (@serve nullable GetExpenses up (as_alice "" january no_body) without_rent).
Proof.
  apply (@reports_depend_on_own_rows nullable GetExpenses up
           (as_alice "" january no_body) ledger without_rent 1);
    [reflexivity | reflexivity | exact one_is_int4 | reflexivity].
Defined.

Lemma requests_leave_foreign_rows_witness :
  foreign_expenses 1
    (snd (@serve nullable DeleteExpense up (as_alice "4" no_query no_body) ledger))
  = [rent]
  /\ foreign_expenses 1
       (snd (@serve nullable PostExpenses up (as_alice "" no_query dated_tea) ledger))
     = [rent].
Proof.
  destruct (@requests_leave_foreign_rows nullable DeleteExpense up
              (as_alice "4" no_query no_body) ledger 1) as [D _];
    [split; discriminate | reflexivity | exact one_is_int4 |].
  destruct (@requests_leave_foreign_rows nullable PostExpenses up
              (as_alice "" no_query dated_tea) ledger 1) as [P _];
    [split; discriminate | reflexivity | exact one_is_int4 |].
  split; [exact D | exact P].
Defined.

(** *** Carol registers and logs in *)

Lemma register_then_login_witness :
  @register nullable up newcomer ledger
  = (Response 201
       (RegisteredBody "User registered successfully" "user.3"
          (NewUserRow 3 "carol" "c@x.com")),
     set_users [alice; bob; carol] (set_users_id_seq 3 ledger))
  /\ @login nullable up stranger
       (set_users [alice; bob; carol] (set_users_id_seq 3 ledger))
     = (Response 200 (LoggedInBody "Logged in successfully" "user.3" 3 "carol"),
        set_users [alice; bob; carol] (set_users_id_seq 3 ledger)).
Proof.
  destruct (@register_then_login nullable up newcomer ledger
              "carol" "c@x.com" "$2a$10$pw123"
              eq_refl eq_refl eq_refl eq_refl carol_is_new) as [R L].
  split; [exact R | exact (L up stranger eq_refl eq_refl eq_refl)].
Defined.

Lemma login_compare_throws_witness :
  @login nullable up wordless ledger
  = (Response 500 (ErrorBody "Server error during login"), ledger).
Proof.
  apply (@login_compare_throws nullable up wordless ledger);
    [reflexivity | exists alice; split; [left | reflexivity] | reflexivity].
Defined.

(** *** An expense from create to delete *)

Lemma createExpense_then_delete_witness :
  @createExpense nullable up (alice_in "" no_query dated_tea) ledger
  = (Response 201 (RowBody (Some (ExpenseRow dated_tea_row))),
     set_expenses [bus; coffee; supper; rent; dated_tea_row]
       (set_expenses_id_seq 5 ledger))
  /\ @deleteExpense nullable up (alice_in "5" no_query no_body)
       (set_expenses [bus; coffee; supper; rent; dated_tea_row]
          (set_expenses_id_seq 5 ledger))
     = (Response 200 (MessageBody "Expense deleted successfully"),
        set_expenses_id_seq 5 ledger).
Proof.
  destruct (@createExpense_then_delete nullable up
              (alice_in "" no_query dated_tea) ledger 1 (Some 3%Q)
              "2024-01-04" (Timestamp (Date 2024 1 4) 0)
              eq_refl one_is_int4 eq_refl ledger_consistent
              eq_refl eq_refl eq_refl) as (C & _ & D).
  split; [exact C|].
  exact (D up (alice_in "5" no_query no_body) eq_refl eq_refl eq_refl).
Defined.

Lemma updateExpense_replaces_witness :
  @updateExpense nullable up (alice_in "1" no_query edit) ledger
  = (Response 200
       (RowBody (Some (ExpenseRow
          (Expense.Build 1 (Some 1%Q) (Some "mine now") (Some "food")
             (jan 4 0) (Some 1))))),
     Db [alice; bob] 2
        [Expense.Build 1 (Some 1%Q) (Some "mine now") (Some "food")
           (jan 4 0) (Some 1); coffee; supper; rent]
        4 [Category.Build (Some "food") (Some 1)]).
Proof.
  apply (@updateExpense_replaces nullable up (alice_in "1" no_query edit)
           ledger 1 bus (Some 1%Q) (jan 4 0));
    [reflexivity | exact one_is_int4 | reflexivity | exact ledger_consistent
     | left | reflexivity | reflexivity | exact one_is_int4 | reflexivity
     | reflexivity | discriminate].
Defined.


Lemma unreadable_values_fail_witness :
  @createExpense nullable up (alice_in "" no_query garbled) ledger
  = (Response 500 (ErrorBody "Failed to add expense"), ledger)
  /\ @updateExpense nullable up (alice_in "1" no_query garbled) ledger
     = (Response 500 (ErrorBody "Failed to update expense"), ledger)
  /\ @deleteExpense nullable up (alice_in "one" no_query no_body) ledger
     = (Response 500 (ErrorBody "Failed to delete expense"), ledger).
Proof.
  destruct (@unreadable_values_fail nullable up
              (alice_in "" no_query garbled) ledger eq_refl) as [C _].
  destruct (@unreadable_values_fail nullable up
              (alice_in "1" no_query garbled) ledger eq_refl) as [U _].
  destruct (@unreadable_values_fail nullable up
              (alice_in "one" no_query no_body) ledger eq_refl) as [_ D].
  assert (G : unreadable (@numeric_in nullable) (JS.Str "lots"))
    by (exists "lots"; split; reflexivity).
  split; [exact (proj1 (C (or_introl G)))|].
  split; [exact (proj2 (U (or_introl G))) | exact (D eq_refl)].
Defined.

(** *** The lists *)


Lemma categorySummary_unfiltered_fails_witness :
  @categorySummary nullable up (alice_in "" month_only no_body) ledger
  = (Response 500 (ErrorBody "Failed to retrieve report data"), ledger).
Proof.
  exact (@categorySummary_unfiltered_fails nullable up
           (alice_in "" month_only no_body) ledger eq_refl).
Defined.


Example range_list_in_order :
  @listExpensesRange nullable up (alice_in "" first_days no_body) ledger
  = (Response 200 (RowsBody (map RangeRow_of [bus; coffee; supper])), ledger).
Proof. reflexivity. Qed.

(** *** The reports *)


Example january_by_day :
  @monthlySummary nullable up (alice_in "" january no_body) ledger
  = (Response 200
       (RowsBody [PartTotal (Some 1) (Some 4%Q);
                  PartTotal (Some 3) (Some (25 # 2))]), ledger).
Proof. reflexivity. Qed.


Example year_by_category :
  @yearlyCategorySummary nullable up (alice_in "" january no_body) ledger
  = (Response 200
       (RowsBody [CategoryTotal (Some "transport") (Some 10%Q);
                  CategoryTotal (Some "food") (Some (13 # 2))]), ledger).
Proof. reflexivity. Qed.


Lemma report_without_window_witness :
  fst (@monthlySummary nullable up (alice_in "" month_only no_body) ledger)
  = Response 500 (ErrorBody "Failed to retrieve monthly summary data")
  \/ fst (@monthlySummary nullable up (alice_in "" month_only no_body) ledger)
     = Response 200 (RowsBody []).
Proof.
  apply (@report_without_window nullable GetMonthlySummary up
           (alice_in "" month_only no_body) ledger).
  exists JS.Undefined. split; [right; left | reflexivity].
Defined.

Example month_without_year :
  @monthlySummary nullable up (alice_in "" month_only no_body) ledger
  = (Response 200 (RowsBody []), ledger).
Proof. reflexivity. Qed.

(** *** Categories *)

Lemma createCategory_then_delete_witness :
  @createCategory nullable up (alice_in "" no_query travel) ledger
  = (Response 201 (RowBody (Some (NameRow (Some "travel")))),
     set_categories
       [Category.Build (Some "food") (Some 1);
        Category.Build (Some "travel") (Some 1)] ledger)
  /\ @deleteCategory nullable up (alice_in "" no_query travel)
       (set_categories
          [Category.Build (Some "food") (Some 1);
           Category.Build (Some "travel") (Some 1)] ledger)
     = (Response 200 (MessageBody "Category deleted successfully"), ledger)
  /\ @deleteCategory nullable up (alice_in "" no_query travel) ledger
     = (Response 404
          (ErrorBody "Category not found or you do not have permission to delete it."),
        ledger).
Proof.
  exact (@createCategory_then_delete nullable up up
           (alice_in "" no_query travel) ledger 1 "travel"
           eq_refl one_is_int4 eq_refl eq_refl eq_refl eq_refl no_travel_yet).
Defined.


(** under the byte order of the reference platform *)
Example categories_in_byte_order :
  @listCategories nullable up (alice_in "" no_query no_body) shelves
  = (Response 200 (NamesBody [Some "food"; Some "travel"]), shelves).
Proof. reflexivity. Qed.

(** *** The first server file *)

Lemma legacy_createExpense_defaults_witness :
  @Legacy.createExpense nullable up (anonymous no_query tea) ledger
  = (Response 201
       (RowBody (Some (ExpenseRow
          (Expense.Build 5 (Some 3%Q) (Some "tea") (Some "food") (Some noon) None)))),
     Db [alice; bob] 2
        [bus; coffee; supper; rent;
         Expense.Build 5 (Some 3%Q) (Some "tea") (Some "food") (Some noon) None]
        5 [Category.Build (Some "food") (Some 1)]).
Proof.
  exact (@legacy_createExpense_defaults nullable up (anonymous no_query tea)
           ledger (Some 3%Q) eq_refl eq_refl).
Defined.

Lemma legacy_delete_ignores_owner_witness :
  @Legacy.deleteExpense nullable up
    (Request JS.Undefined "4" no_query no_body JS.Undefined) ledger
  = (Response 200 (MessageBody "Expense deleted successfully"),
     Db [alice; bob] 2 [bus; coffee; supper] 4
        [Category.Build (Some "food") (Some 1)])
  /\ @Legacy.deleteExpense nullable up
       (Request JS.Undefined "9" no_query no_body JS.Undefined) ledger
     = (Response 404 (ErrorBody "Expense not found"), ledger).
Proof.
  destruct (@legacy_delete_ignores_owner nullable up
              (Request JS.Undefined "4" no_query no_body JS.Undefined) ledger 4
              eq_refl eq_refl) as [D _].
  destruct (@legacy_delete_ignores_owner nullable up
              (Request JS.Undefined "9" no_query no_body JS.Undefined) ledger 9
              eq_refl eq_refl) as [_ N].
  split.
  - apply D. exists rent. split; [|reflexivity]. do 3 right. left.
  - apply N. intros (e & I & E). unfold ledger in I. cbn [expenses] in I.
    repeat (apply elem_of_cons in I as [-> | I]); try discriminate.
    now apply elem_of_nil in I.
Defined.

Example anyone_deletes_the_rent :
  @Legacy.deleteExpense nullable up
    (Request JS.Undefined "4" no_query no_body JS.Undefined) ledger
  = (Response 200 (MessageBody "Expense deleted successfully"), without_rent).
Proof. reflexivity. Qed.


Example everybody_by_category :
  Legacy.categorySummary up (anonymous no_query no_body) ledger
  = (Response 200
       (RowsBody [CategoryTotal (Some "home") (Some 99%Q);
                  CategoryTotal (Some "transport") (Some 10%Q);
                  CategoryTotal (Some "food") (Some (13 # 2))]), ledger).
Proof. reflexivity. Qed.

End Walkthrough.
